(** * Fuel-Finder data processing: [scripts/process_data.py]

    A shallow embedding of the merge / clean / emit pipeline of
    [process_data.py] and the properties of it that the specification states.

    Conventions of the embedding.
    - A Python [float] is a [pyfloat]: a finite value (a rational number, which
      every finite binary float is), an infinity, or NaN.  Comparisons follow
      IEEE 754 as Python exposes them: every ordered comparison with NaN is
      false and [NaN != x] is true.
    - A [pandas.DataFrame] is the list of its rows, a row is a record of the
      columns the script reads.  A column the script reads with [.get] is
      optional ([None]: the frame has no such column).
    - Python dictionaries are finite maps ([gmap]).
    - Exceptions are outcomes: [Raise e].  [sys.exit(1)] raises [SystemExit 1].
    - Data frames are objects: they live in a store and the functions receive
      references, so that assignments to a column of the caller's frame are
      visible to the caller.
    - [print] is not modelled. *)

From Stdlib Require Import QArith.
From stdpp Require Import gmap strings list fin_maps.

Local Open Scope Z_scope.
Local Open Scope string_scope.
Local Open Scope list_scope.

(** ** Python values *)

Inductive pyfloat : Type :=
| Fin (q : Q)
| PInf
| NInf
| NaN.

(** [a < b] on floats. *)
Definition flt (a b : pyfloat) : bool :=
  match a, b with
  | NaN, _ | _, NaN => false
  | _, NInf => false
  | NInf, _ => true
  | PInf, _ => false
  | Fin _, PInf => true
  | Fin x, Fin y => negb (Qle_bool y x)
  end.

(** [a <= b] on floats. *)
Definition fle (a b : pyfloat) : bool :=
  match a, b with
  | NaN, _ | _, NaN => false
  | NInf, _ => true
  | _, PInf => true
  | _, NInf => false
  | PInf, _ => false
  | Fin x, Fin y => Qle_bool x y
  end.

(** [a != b] on floats. *)
Definition fne (a b : pyfloat) : bool :=
  match a, b with
  | NaN, _ | _, NaN => true
  | Fin x, Fin y => negb (Qeq_bool x y)
  | PInf, PInf | NInf, NInf => false
  | _, _ => true
  end.

Definition is_nan (a : pyfloat) : bool :=
  match a with NaN => true | _ => false end.

(** A cell of a column that holds text: a string, or NaN where the CSV field
    was empty. *)
Inductive pyval : Type :=
| VStr (s : string)
| VNaN.

(** [str(v)] *)
Definition str (v : pyval) : string :=
  match v with
  | VStr s => s
  | VNaN => "nan"
  end.

(** A cell of a column that is meant to hold numbers, as [float()] and
    [pandas.to_numeric] see it: [Num x] is a float64 value [x], or text that
    parses to [x]; [NonNumeric] is text that does not parse as a number. *)
Inductive cell : Type :=
| Num (x : pyfloat)
| NonNumeric.

Inductive exn : Type :=
| ValueError
| TypeError
| KeyError
| SystemExit (code : Z).

Inductive outcome (A : Type) : Type :=
| Ok (a : A)
| Raise (e : exn).
Arguments Ok {A} a.
Arguments Raise {A} e.

#[global] Instance outcome_ret : MRet outcome := fun _ a => Ok a.
#[global] Instance outcome_bind : MBind outcome := fun _ _ f m =>
  match m with
  | Ok a => f a
  | Raise e => Raise e
  end.

(** [float(c)]: raises [ValueError] on text that is not a number. *)
Definition float (c : cell) : outcome pyfloat :=
  match c with
  | Num x => Ok x
  | NonNumeric => Raise ValueError
  end.

(** [d[k]]: raises [KeyError] when the key is missing. *)
Definition getitem {K V : Type} `{Countable K} (d : gmap K V) (k : K) : outcome V :=
  match d !! k with
  | Some v => Ok v
  | None => Raise KeyError
  end.

(** [try: body  except Exception as e: print(...); sys.exit(1)].
    [SystemExit] is not an [Exception] and passes through. *)
Definition try_except_exit {A : Type} (body : outcome A) : outcome A :=
  match body with
  | Ok a => Ok a
  | Raise (SystemExit c) => Raise (SystemExit c)
  | Raise _ => Raise (SystemExit 1)
  end.

(** ** Fuel categories *)

Definition FUEL_CATEGORIES : list (string * list string) :=
  [ ("Benzina",
     [ "Benzina"; "Benzina speciale"; "Benzina 100 ottani"; "Benzina 102 Ottani";
       "Benzina Plus 98"; "Benzina Speciale 98 Ottani"; "Benzina Energy 98 ottani";
       "Benzina Shell V Power"; "Benzina WR 100"; "Blue Super"; "Verde speciale";
       "F-101"; "F101"; "V-Power" ]);
    ("Gasolio",
     [ "Gasolio"; "Gasolio Alpino"; "Gasolio Artico"; "Gasolio speciale";
       "Gasolio Artico Igloo"; "Gasolio Ecoplus"; "Gasolio Energy D";
       "Gasolio Gelo"; "Gasolio Oro Diesel"; "Gasolio Plus"; "Gasolio Premium";
       "Gasolio Prestazionale"; "Gasolio artico"; "Blu Diesel Alpino";
       "Blue Diesel"; "Diesel Shell V Power"; "DieselMax"; "E-DIESEL";
       "Excellium Diesel"; "Excellium diesel"; "GP DIESEL"; "Hi-Q Diesel";
       "HiQ Perform+"; "S-Diesel"; "Supreme Diesel"; "V-Power Diesel" ]);
    ("Gasolio HVO",
     [ "HVO"; "HVO100"; "HVOlution"; "HVOvolution"; "Diesel HVO";
       "Diesel HVO Energy"; "Gasolio Bio HVO"; "Gasolio HVO"; "HVO Future";
       "HVO eco diesel"; "REHVO"; "BCHVO" ]);
    ("GPL", [ "GPL" ]);
    ("Metano", [ "Metano"; "L-GNC" ]);
    ("GNL", [ "GNL" ]) ].

(** [fuel_name in fuels] *)
Definition contains (fuels : list string) (fuel_name : string) : bool :=
  existsb (String.eqb fuel_name) fuels.

(** The [for category, fuels in ...items()] loop with its early [return]. *)
Fixpoint first_category (table : list (string * list string)) (fuel_name : string)
  : option string :=
  match table with
  | [] => None
  | (category, fuels) :: rest =>
      if contains fuels fuel_name then Some category
      else first_category rest fuel_name
  end.

Definition get_main_fuel_category (fuel_name : string) : string :=
  match first_category FUEL_CATEGORIES fuel_name with
  | Some category => category
  | None => fuel_name
  end.

(** ** Data frames *)

(** A row of the price CSV.  [dtComu] is read with [row.get('dtComu', '')]. *)
Module Price.
Record row : Type := {
  idImpianto : Z;
  descCarburante : string;
  prezzo : cell;
  dtComu : option pyval
}.
End Price.

(** A row of the station CSV, with the two columns that
    [clean_and_merge_data] adds.  A value of the [prices] column is a
    dictionary or NaN ([None]). *)
Module Station.
Record row : Type := {
  idImpianto : Z;
  Latitudine : cell;
  Longitudine : cell;
  Gestore : option pyval;
  Bandiera : option pyval;
  Tipo_Impianto : option pyval;
  Nome_Impianto : option pyval;
  Indirizzo : option pyval;
  Comune : option pyval;
  Provincia : option pyval;
  prices : option (option (gmap string pyfloat));
  priceDates : option (option (gmap string pyval))
}.

Definition set_prices (v : option (gmap string pyfloat)) (r : row) : row :=
  {| idImpianto := idImpianto r; Latitudine := Latitudine r;
     Longitudine := Longitudine r; Gestore := Gestore r;
     Bandiera := Bandiera r; Tipo_Impianto := Tipo_Impianto r;
     Nome_Impianto := Nome_Impianto r; Indirizzo := Indirizzo r;
     Comune := Comune r; Provincia := Provincia r;
     prices := Some v; priceDates := priceDates r |}.

Definition set_priceDates (v : option (gmap string pyval)) (r : row) : row :=
  {| idImpianto := idImpianto r; Latitudine := Latitudine r;
     Longitudine := Longitudine r; Gestore := Gestore r;
     Bandiera := Bandiera r; Tipo_Impianto := Tipo_Impianto r;
     Nome_Impianto := Nome_Impianto r; Indirizzo := Indirizzo r;
     Comune := Comune r; Provincia := Provincia r;
     prices := prices r; priceDates := Some v |}.

Definition set_Latitudine (c : cell) (r : row) : row :=
  {| idImpianto := idImpianto r; Latitudine := c;
     Longitudine := Longitudine r; Gestore := Gestore r;
     Bandiera := Bandiera r; Tipo_Impianto := Tipo_Impianto r;
     Nome_Impianto := Nome_Impianto r; Indirizzo := Indirizzo r;
     Comune := Comune r; Provincia := Provincia r;
     prices := prices r; priceDates := priceDates r |}.

Definition set_Longitudine (c : cell) (r : row) : row :=
  {| idImpianto := idImpianto r; Latitudine := Latitudine r;
     Longitudine := c; Gestore := Gestore r;
     Bandiera := Bandiera r; Tipo_Impianto := Tipo_Impianto r;
     Nome_Impianto := Nome_Impianto r; Indirizzo := Indirizzo r;
     Comune := Comune r; Provincia := Provincia r;
     prices := prices r; priceDates := priceDates r |}.
End Station.

(** [row[name]] on a column that may be missing from the frame. *)
Definition column {A : Type} (c : option A) : outcome A :=
  match c with
  | Some v => Ok v
  | None => Raise KeyError
  end.

(** [df[mask]]: the mask is computed for every row, then the rows where it is
    true are kept, in the frame's order. *)
Fixpoint select {A : Type} (mask : A -> outcome bool) (rows : list A)
  : outcome (list A) :=
  match rows with
  | [] => Ok []
  | r :: rest =>
      b ← mask r;
      kept ← select mask rest;
      Ok (if b : bool then r :: kept else kept)
  end.

(** [pd.to_numeric(c, errors='coerce')] on one cell. *)
Definition to_numeric (c : cell) : cell :=
  match c with
  | Num x => Num x
  | NonNumeric => Num NaN
  end.

(** [isna] on one cell: text is not NA. *)
Definition isna (c : cell) : bool :=
  match c with
  | Num x => is_nan x
  | NonNumeric => false
  end.

(** [column != 0] on one cell: text differs from every number. *)
Definition ne_zero (c : cell) : bool :=
  match c with
  | Num x => fne x (Fin 0)
  | NonNumeric => true
  end.

(** [column.between(lo, hi)] on one cell, both ends included; comparing text
    with a number raises [TypeError]. *)
Definition between (c : cell) (lo hi : Q) : outcome bool :=
  match c with
  | Num x => Ok (fle (Fin lo) x && fle x (Fin hi))
  | NonNumeric => Raise TypeError
  end.

(** ** The store of data frames *)

Record heap : Type := {
  price_frames : nat -> list Price.row;
  station_frames : nat -> list Station.row;
  next_frame : nat
}.

(** A computation that may raise and may change the store. *)
Definition py (A : Type) : Type := heap -> outcome A * heap.

#[global] Instance py_ret : MRet py := fun _ a h => (Ok a, h).
#[global] Instance py_bind : MBind py := fun _ _ f m h =>
  match m h with
  | (Ok a, h') => f a h'
  | (Raise e, h') => (Raise e, h')
  end.

Definition lift {A : Type} (o : outcome A) : py A := fun h => (o, h).

Definition read_prices (df : nat) : py (list Price.row) :=
  fun h => (Ok (price_frames h df), h).

Definition read_stations (df : nat) : py (list Station.row) :=
  fun h => (Ok (station_frames h df), h).

(** An assignment to columns of the frame [df] itself. *)
Definition write_stations (df : nat) (rows : list Station.row) : py unit :=
  fun h =>
    (Ok tt,
     {| price_frames := price_frames h;
        station_frames := fun r => if Nat.eqb r df then rows else station_frames h r;
        next_frame := next_frame h |}).

(** A new frame object. *)
Definition new_stations (rows : list Station.row) : py nat :=
  fun h =>
    (Ok (next_frame h),
     {| price_frames := price_frames h;
        station_frames :=
          fun r => if Nat.eqb r (next_frame h) then rows else station_frames h r;
        next_frame := S (next_frame h) |}).

Definition try_except_exit_py {A : Type} (body : py A) : py A :=
  fun h => let '(o, h') := body h in (try_except_exit o, h').

(** ** [clean_and_merge_data] *)

(** The body of the loop over [prices_df.iterrows()]; the state is the pair of
    dictionaries [price_groups] and [price_dates]. *)
Definition price_step
    (st : gmap Z (gmap string pyfloat) * gmap Z (gmap string pyval))
    (row : Price.row)
  : outcome (gmap Z (gmap string pyfloat) * gmap Z (gmap string pyval)) :=
  let '(price_groups, price_dates) := st in
  let station_id := Price.idImpianto row in
  let fuel_type := Price.descCarburante row in
  let price := Price.prezzo row in
  let date_updated := default (VStr EmptyString) (Price.dtComu row) in
  let main_category := get_main_fuel_category fuel_type in
  let '(price_groups, price_dates) :=
    match price_groups !! station_id with
    | None => (<[station_id := ∅]> price_groups, <[station_id := ∅]> price_dates)
    | Some _ => (price_groups, price_dates)
    end in
  station_prices ← getitem price_groups station_id;
  match station_prices !! main_category with
  | None =>
      p ← float price;
      station_dates ← getitem price_dates station_id;
      Ok (<[station_id := <[main_category := p]> station_prices]> price_groups,
          <[station_id := <[main_category := date_updated]> station_dates]> price_dates)
  | Some stored =>
      p ← float price;
      if flt p stored then
        station_dates ← getitem price_dates station_id;
        Ok (<[station_id := <[main_category := p]> station_prices]> price_groups,
            <[station_id := <[main_category := date_updated]> station_dates]> price_dates)
      else Ok (price_groups, price_dates)
  end.

Fixpoint iterrows_loop
    (rows : list Price.row)
    (st : gmap Z (gmap string pyfloat) * gmap Z (gmap string pyval))
  : outcome (gmap Z (gmap string pyfloat) * gmap Z (gmap string pyval)) :=
  match rows with
  | [] => Ok st
  | row :: rest => st' ← price_step st row; iterrows_loop rest st'
  end.

(** [stations_df['prices'] = stations_df['idImpianto'].map(price_groups)]:
    an identifier that is not a key of the dictionary maps to NaN. *)
Definition assign_prices (price_groups : gmap Z (gmap string pyfloat))
    (rows : list Station.row) : list Station.row :=
  map (fun r => Station.set_prices (price_groups !! Station.idImpianto r) r) rows.

Definition assign_priceDates (price_dates : gmap Z (gmap string pyval))
    (rows : list Station.row) : list Station.row :=
  map (fun r => Station.set_priceDates (price_dates !! Station.idImpianto r) r) rows.

(** [stations_df['prices'].notna()] at one row. *)
Definition prices_notna (r : Station.row) : outcome bool :=
  v ← column (Station.prices r);
  Ok (bool_decide (is_Some v)).

Definition coerce_Latitudine (rows : list Station.row) : list Station.row :=
  map (fun r => Station.set_Latitudine (to_numeric (Station.Latitudine r)) r) rows.

Definition coerce_Longitudine (rows : list Station.row) : list Station.row :=
  map (fun r => Station.set_Longitudine (to_numeric (Station.Longitudine r)) r) rows.

(** [dropna(subset=['Latitudine', 'Longitudine'])] *)
Definition dropna (rows : list Station.row) : list Station.row :=
  List.filter
    (fun r => negb (isna (Station.Latitudine r) || isna (Station.Longitudine r)))
    rows.

(** The mask of the last filter, at one row. *)
Definition coordinates_mask (r : Station.row) : outcome bool :=
  let lat_ne := ne_zero (Station.Latitudine r) in
  let lon_ne := ne_zero (Station.Longitudine r) in
  lat_in ← between (Station.Latitudine r) 35 48;
  lon_in ← between (Station.Longitudine r) 6 19;
  Ok (lat_ne && lon_ne && lat_in && lon_in).

(** The function receives references to the two frames and returns a
    reference to the resulting frame. *)
Definition clean_and_merge_data (prices_df stations_df : nat) : py nat :=
  try_except_exit_py (
    price_rows ← read_prices prices_df;
    groups ← lift (iterrows_loop price_rows (∅, ∅));
    let price_groups := groups.1 in
    let price_dates := groups.2 in
    rows ← read_stations stations_df;
    write_stations stations_df (assign_prices price_groups rows);;
    rows ← read_stations stations_df;
    write_stations stations_df (assign_priceDates price_dates rows);;
    rows ← read_stations stations_df;
    kept ← lift (select prices_notna rows);
    stations_df ← new_stations kept;
    rows ← read_stations stations_df;
    write_stations stations_df (coerce_Latitudine rows);;
    rows ← read_stations stations_df;
    write_stations stations_df (coerce_Longitudine rows);;
    rows ← read_stations stations_df;
    stations_df ← new_stations (dropna rows);
    rows ← read_stations stations_df;
    kept ← lift (select coordinates_mask rows);
    stations_df ← new_stations kept;
    mret stations_df).

(** ** [create_geojson] *)

Module GeoJSON.
Record geometry : Type := {
  geometry_type : string;
  coordinates : list pyfloat
}.

Record properties : Type := {
  idImpianto : Z;
  Gestore : string;
  Bandiera : string;
  TipoImpianto : string;
  NomeImpianto : string;
  Indirizzo : string;
  Comune : string;
  Provincia : string;
  prices : option (gmap string pyfloat);
  priceDates : option (gmap string pyval)
}.

Record feature : Type := {
  feature_type : string;
  geometry_of : geometry;
  properties_of : properties
}.

Record document : Type := {
  document_type : string;
  features : list feature
}.
End GeoJSON.

(** [str(station.get(name, ''))] *)
Definition get_str (c : option pyval) : string :=
  str (default (VStr EmptyString) c).

(** The feature built from one row of the frame. *)
Definition make_feature (station : Station.row) : outcome GeoJSON.feature :=
  lon ← float (Station.Longitudine station);
  lat ← float (Station.Latitudine station);
  station_prices ← column (Station.prices station);
  Ok {| GeoJSON.feature_type := "Feature";
        GeoJSON.geometry_of :=
          {| GeoJSON.geometry_type := "Point";
             GeoJSON.coordinates := [lon; lat] |};
        GeoJSON.properties_of :=
          {| GeoJSON.idImpianto := Station.idImpianto station;
             GeoJSON.Gestore := get_str (Station.Gestore station);
             GeoJSON.Bandiera := get_str (Station.Bandiera station);
             GeoJSON.TipoImpianto := get_str (Station.Tipo_Impianto station);
             GeoJSON.NomeImpianto := get_str (Station.Nome_Impianto station);
             GeoJSON.Indirizzo := get_str (Station.Indirizzo station);
             GeoJSON.Comune := get_str (Station.Comune station);
             GeoJSON.Provincia := get_str (Station.Provincia station);
             GeoJSON.prices := station_prices;
             GeoJSON.priceDates := default (Some ∅) (Station.priceDates station) |} |}.

(** The loop over [stations_df.iterrows()] that appends to [features]. *)
Fixpoint make_features (rows : list Station.row) : outcome (list GeoJSON.feature) :=
  match rows with
  | [] => Ok []
  | station :: rest =>
      feature ← make_feature station;
      features ← make_features rest;
      Ok (feature :: features)
  end.

Definition create_geojson (stations_df : nat) : py GeoJSON.document :=
  try_except_exit_py (
    rows ← read_stations stations_df;
    features ← lift (make_features rows);
    mret {| GeoJSON.document_type := "FeatureCollection";
            GeoJSON.features := features |}).

(** [main] between [fetch_data] and [save_geojson]. *)
Definition process (prices_df stations_df : nat) : py GeoJSON.document :=
  merged_df ← clean_and_merge_data prices_df stations_df;
  create_geojson merged_df.

(** ** Vocabulary of the statements *)

(** The six canonical categories. *)
Definition canonical_categories : list string :=
  [ "Benzina"; "Gasolio"; "Gasolio HVO"; "GPL"; "Metano"; "GNL" ].

(** [d[station_id][category]], when both keys are there. *)
Definition entry {V : Type} (d : gmap Z (gmap string V)) (station_id : Z)
    (category : string) : option V :=
  d !! station_id ≫= (.!! category).

(** The price row is one of the station's rows for the category. *)
Definition row_matches (station_id : Z) (category : string) (row : Price.row) : bool :=
  Z.eqb (Price.idImpianto row) station_id
  && String.eqb (get_main_fuel_category (Price.descCarburante row)) category.

(** The price of the row is a number. *)
Definition priced (row : Price.row) : Prop :=
  ∃ x, Price.prezzo row = Num x ∧ is_nan x = false.

(** What a row contributes to [price_dates]. *)
Definition date_of (row : Price.row) : pyval :=
  default (VStr EmptyString) (Price.dtComu row).

(** The two dictionaries have the same stations, every station has the same
    categories in both and at least one. *)
Definition groups_inv
    (st : gmap Z (gmap string pyfloat) * gmap Z (gmap string pyval)) : Prop :=
  ∀ station_id,
    match st.1 !! station_id, st.2 !! station_id with
    | Some g, Some d => dom g = dom d ∧ g ≠ ∅
    | None, None => True
    | _, _ => False
    end.

(** The station has a price dictionary. *)
Definition has_prices (price_groups : gmap Z (gmap string pyfloat))
    (station : Station.row) : bool :=
  bool_decide (is_Some (price_groups !! Station.idImpianto station)).

(** Both coordinates are finite numbers, none is zero, the latitude is in
    [35, 48] and the longitude in [6, 19]. *)
Definition coordinates_ok (station : Station.row) : bool :=
  match Station.Latitudine station, Station.Longitudine station with
  | Num (Fin lat), Num (Fin lon) =>
      negb (Qeq_bool lat 0) && negb (Qeq_bool lon 0)
      && Qle_bool 35 lat && Qle_bool lat 48
      && Qle_bool 6 lon && Qle_bool lon 19
  | _, _ => false
  end.

Definition coordinates_valid (station : Station.row) : Prop :=
  ∃ lat lon : Q,
    Station.Latitudine station = Num (Fin lat) ∧
    Station.Longitudine station = Num (Fin lon) ∧
    (35 <= lat)%Q ∧ (lat <= 48)%Q ∧ (6 <= lon)%Q ∧ (lon <= 19)%Q ∧
    ¬ (lat == 0)%Q ∧ ¬ (lon == 0)%Q.

(** The station row as the merge returns it: the two dictionaries attached
    and both coordinates coerced. *)
Definition enrich (price_groups : gmap Z (gmap string pyfloat))
    (price_dates : gmap Z (gmap string pyval)) (station : Station.row)
  : Station.row :=
  Station.set_Longitudine (to_numeric (Station.Longitudine station))
    (Station.set_Latitudine (to_numeric (Station.Latitudine station))
       (Station.set_priceDates (price_dates !! Station.idImpianto station)
          (Station.set_prices (price_groups !! Station.idImpianto station) station))).

(** The columns of the station CSV are the same in both rows. *)
Definition same_station_columns (a b : Station.row) : Prop :=
  Station.idImpianto a = Station.idImpianto b ∧
  Station.Latitudine a = Station.Latitudine b ∧
  Station.Longitudine a = Station.Longitudine b ∧
  Station.Gestore a = Station.Gestore b ∧
  Station.Bandiera a = Station.Bandiera b ∧
  Station.Tipo_Impianto a = Station.Tipo_Impianto b ∧
  Station.Nome_Impianto a = Station.Nome_Impianto b ∧
  Station.Indirizzo a = Station.Indirizzo b ∧
  Station.Comune a = Station.Comune b ∧
  Station.Provincia a = Station.Provincia b.

(** A price row whose price is not a number. *)
Definition malformed (row : Price.row) : Prop :=
  Price.prezzo row = NonNumeric.

(** The entry of a station and category after the loop over [rows]: nothing
    when no row is for them; otherwise the price and the date of the first
    of their rows that no other of their rows undercuts: the rows [before]
    it are dearer, the rows [after] it are not cheaper. *)
Definition cheapest_entry (rows : list Price.row)
    (st : gmap Z (gmap string pyfloat) * gmap Z (gmap string pyval))
    (station_id : Z) (category : string) : Prop :=
  let mine := List.filter (row_matches station_id category) rows in
  (mine = [] ∧
   entry st.1 station_id category = None ∧
   entry st.2 station_id category = None)
  ∨
  (∃ before row after p,
      mine = before ++ row :: after ∧
      Price.prezzo row = Num p ∧
      entry st.1 station_id category = Some p ∧
      entry st.2 station_id category = Some (date_of row) ∧
      Forall (λ r, ∃ x, Price.prezzo r = Num x ∧ flt p x = true) before ∧
      Forall (λ r, ∃ x, Price.prezzo r = Num x ∧ is_nan x = false ∧ flt x p = false)
        after).

(** The last mask on a row whose coordinates are numbers. *)
Definition coerced_mask (r : Station.row) : bool :=
  match Station.Latitudine r, Station.Longitudine r with
  | Num lat, Num lon =>
      fne lat (Fin 0) && fne lon (Fin 0)
      && (fle (Fin 35) lat && fle lat (Fin 48))
      && (fle (Fin 6) lon && fle lon (Fin 19))
  | _, _ => false
  end.

(** ** Sample data *)

Definition price_row (station_id : Z) (fuel : string) (price : cell) (date : string)
  : Price.row :=
  {| Price.idImpianto := station_id; Price.descCarburante := fuel;
     Price.prezzo := price; Price.dtComu := Some (VStr date) |}.

(** A station row as read from a CSV that has no [Bandiera] column. *)
Definition station_row (station_id : Z) (lat lon : cell) (name : string)
  : Station.row :=
  {| Station.idImpianto := station_id;
     Station.Latitudine := lat; Station.Longitudine := lon;
     Station.Gestore := Some (VStr "Gestore"); Station.Bandiera := None;
     Station.Tipo_Impianto := Some (VStr "Stradale");
     Station.Nome_Impianto := Some (VStr name);
     Station.Indirizzo := Some VNaN; Station.Comune := Some (VStr "ROMA");
     Station.Provincia := Some (VStr "RM");
     Station.prices := None; Station.priceDates := None |}.

(** A store with one price frame and one station frame, both at reference 0. *)
Definition store_of (prices : list Price.row) (stations : list Station.row) : heap :=
  {| price_frames := fun r => if Nat.eqb r 0 then prices else [];
     station_frames := fun r => if Nat.eqb r 0 then stations else [];
     next_frame := 1 |}.

Definition sample_prices : list Price.row :=
  [ price_row 1 "Benzina" (Num (Fin 1.899)) "01/03/2024 08:00:00";
    price_row 1 "V-Power" (Num (Fin 1.750)) "02/03/2024 08:00:00";
    price_row 1 "Gasolio" (Num (Fin 1.700)) "01/03/2024 08:00:00";
    price_row 2 "Benzina" (Num (Fin 1.800)) "01/03/2024 08:00:00";
    price_row 4 "GPL" (Num (Fin 0.700)) "01/03/2024 08:00:00" ].

Definition sample_stations : list Station.row :=
  [ station_row 1 (Num (Fin 41.9)) (Num (Fin 12.5)) "Roma";
    station_row 2 (Num (Fin 0)) (Num (Fin 12.5)) "Zero";
    station_row 3 (Num (Fin 45.4)) (Num (Fin 9.1)) "Senza prezzi";
    station_row 4 (Num (Fin 45.0)) (Num (Fin 7.6)) "Torino" ].

Definition sample_store : heap := store_of sample_prices sample_stations.

(** The same prices with one price that is not a number. *)
Definition dirty_prices : list Price.row :=
  sample_prices ++ [ price_row 4 "Metano" NonNumeric "01/03/2024 08:00:00" ].

Definition dirty_store : heap := store_of dirty_prices sample_stations.

(** The store after the merge of the sample data; the frame returned is at
    reference 3. *)
Definition sample_merged : heap := (clean_and_merge_data 0 0 sample_store).2.

(** The document emitted for the sample data. *)
Definition sample_document : GeoJSON.document :=
  match (process 0 0 sample_store).1 with
  | Ok doc => doc
  | Raise _ => {| GeoJSON.document_type := EmptyString; GeoJSON.features := [] |}
  end.

(** ** Vocabulary of the further statements *)

(** Some price row carries the identifier of the station. *)
Definition has_price_row (price_rows : list Price.row) (station : Station.row)
  : bool :=
  existsb (fun row => Z.eqb (Price.idImpianto row) (Station.idImpianto station))
    price_rows.

(** How a cell of a descriptive column shows in the properties of a
    feature: its text, [nan] for an empty field, nothing for a column that
    the frame lacks. *)
Definition rendered (c : option pyval) (s : string) : Prop :=
  match c with
  | Some (VStr text) => s = text
  | Some VNaN => s = "nan"
  | None => s = EmptyString
  end.

(** A row from which [create_geojson] can build a feature: both coordinates
    are numbers and the [prices] column is there. *)
Definition emittable (row : Station.row) : Prop :=
  ∃ lon lat station_prices,
    Station.Longitudine row = Num lon ∧
    Station.Latitudine row = Num lat ∧
    Station.prices row = Some station_prices.

(** Two prices of which none is lower than the other. *)
Definition same_price (p q : pyfloat) : Prop :=
  flt p q = false ∧ flt q p = false.

(** * Properties *)

(** ** Floats *)

Lemma Qle_bool_false (x y : Q) : Qle_bool x y = false → (y < x)%Q.
Proof.
  intros H. apply Qnot_le_lt. intros Hle.
  apply Qle_bool_iff in Hle. congruence.
Qed.

Lemma flt_true_not_nan (a b : pyfloat) :
  flt a b = true → is_nan a = false ∧ is_nan b = false.
Proof. destruct a, b; simpl; intros; split; congruence. Qed.

Lemma flt_irrefl (a : pyfloat) : flt a a = false.
Proof.
  destruct a; simpl; try reflexivity.
  apply negb_false_iff, Qle_bool_iff, Qle_refl.
Qed.

Lemma flt_asym (a b : pyfloat) : flt a b = true → flt b a = false.
Proof.
  destruct a, b; simpl; try congruence; intros H.
  apply negb_true_iff, Qle_bool_false in H.
  apply negb_false_iff, Qle_bool_iff. by apply Qlt_le_weak.
Qed.

(** [a < b] and [b <= c] (that is, not [c < b]) give [a < c]. *)
Lemma flt_le_trans (a b c : pyfloat) :
  is_nan c = false → flt a b = true → flt c b = false → flt a c = true.
Proof.
  destruct a, b, c; simpl; try congruence; intros _ Hab Hcb.
  apply negb_true_iff, Qle_bool_false in Hab.
  apply negb_false_iff, Qle_bool_iff in Hcb.
  apply negb_true_iff. destruct (Qle_bool q1 q) eqn:E; [|done].
  apply Qle_bool_iff in E. exfalso.
  apply (Qlt_irrefl q). eapply Qlt_le_trans; [exact Hab|].
  by eapply Qle_trans.
Qed.

(** ** The category table *)

Lemma contains_elem_of (fuels : list string) (fuel_name : string) :
  contains fuels fuel_name = true ↔ fuel_name ∈ fuels.
Proof.
  unfold contains. rewrite existsb_exists, list_elem_of_In. split.
  - intros (x & Hin & Heq). apply String.eqb_eq in Heq. by subst.
  - intros Hin. exists fuel_name. split; [done | apply String.eqb_refl].
Qed.

Lemma first_category_none (table : list (string * list string)) (fuel_name : string) :
  (∀ category fuels, (category, fuels) ∈ table → fuel_name ∉ fuels) →
  first_category table fuel_name = None.
Proof.
  induction table as [|[category fuels] rest IH]; intros Hnot; [done|].
  simpl. destruct (contains fuels fuel_name) eqn:E.
  - apply contains_elem_of in E. exfalso.
    apply (Hnot category fuels); [apply list_elem_of_here | done].
  - apply IH. intros c fs Hin. apply (Hnot c fs). by apply list_elem_of_further.
Qed.

Lemma table_categories :
  Forall
    (λ entry : string * list string,
       entry.1 ∈ canonical_categories ∧
       Forall (λ fuel, get_main_fuel_category fuel = entry.1) entry.2)
    FUEL_CATEGORIES.
Proof.
  unfold FUEL_CATEGORIES.
  repeat first [apply Forall_nil_2 | apply Forall_cons_2 | split];
    simpl; try reflexivity; unfold canonical_categories; set_solver.
Qed.

(** C1. For every raw fuel name listed in an entry of [FUEL_CATEGORIES],
    [get_main_fuel_category] returns the category of that entry, which is
    one of the six canonical categories; for a name that no entry lists it
    returns the name itself.  The function is total: it raises nothing. *)
Theorem get_main_fuel_category_table :
  (∀ category fuels fuel_name,
      (category, fuels) ∈ FUEL_CATEGORIES → fuel_name ∈ fuels →
      get_main_fuel_category fuel_name = category ∧
      category ∈ canonical_categories) ∧
  (∀ fuel_name,
      (∀ category fuels, (category, fuels) ∈ FUEL_CATEGORIES → fuel_name ∉ fuels) →
      get_main_fuel_category fuel_name = fuel_name).
Proof.
  split.
  - intros category fuels fuel_name Hentry Hfuel.
    pose proof table_categories as HT.
    rewrite Forall_forall in HT. destruct (HT _ Hentry) as [Hcat Hall].
    rewrite Forall_forall in Hall. simpl in *. split; [by apply Hall | done].
  - intros fuel_name Hnot. unfold get_main_fuel_category.
    by rewrite (first_category_none _ _ Hnot).
Qed.

Lemma get_main_fuel_category_table_witness :
  get_main_fuel_category "V-Power Diesel" = "Gasolio" ∧
  get_main_fuel_category "Kerosene" = "Kerosene".
Proof.
  split.
  - apply (proj1 get_main_fuel_category_table "Gasolio"
             (default [] (snd <$> FUEL_CATEGORIES !! 1%nat)) "V-Power Diesel").
    + vm_compute. set_solver.
    + vm_compute. set_solver.
  - apply (proj2 get_main_fuel_category_table "Kerosene").
    intros category fuels Hentry Hfuel.
    pose proof (proj2 (contains_elem_of fuels "Kerosene") Hfuel) as Hc.
    unfold FUEL_CATEGORIES in Hentry.
    repeat (apply elem_of_cons in Hentry as [Hentry|Hentry];
            [injection Hentry as -> ->; vm_compute in Hc; discriminate|]).
    by apply elem_of_nil in Hentry.
Defined.

(** ** The loop over the price rows *)

Lemma groups_inv_empty : groups_inv (∅, ∅).
Proof. intros station_id. simpl. by rewrite !lookup_empty. Qed.

Lemma entry_insert {V : Type} (d : gmap Z (gmap string V)) (a b : Z)
    (g : gmap string V) (c : string) :
  entry (<[a := g]> d) b c = if decide (a = b) then g !! c else entry d b c.
Proof.
  unfold entry. rewrite lookup_insert. by destruct (decide (a = b)).
Qed.

(** Storing a price and its date for the category of a row keeps the
    invariant and touches no other entry. *)
Lemma store_inv (pg : gmap Z (gmap string pyfloat)) (pd : gmap Z (gmap string pyval))
    (a : Z) (c : string) (g : gmap string pyfloat) (d : gmap string pyval)
    (p : pyfloat) (v : pyval) :
  groups_inv (pg, pd) → dom g = dom d →
  groups_inv (<[a := <[c := p]> g]> pg, <[a := <[c := v]> d]> pd).
Proof.
  intros Hinv Hdom b. specialize (Hinv b). simpl in *.
  rewrite !lookup_insert. destruct (decide (a = b)); [|done].
  split; [by rewrite !dom_insert_L, Hdom | apply insert_non_empty].
Qed.

(** One iteration on a row whose price is a number, from a state between
    two iterations. *)
Lemma price_step_number
    (st : gmap Z (gmap string pyfloat) * gmap Z (gmap string pyval))
    (row : Price.row) (p : pyfloat) :
  groups_inv st → Price.prezzo row = Num p →
  ∃ st',
    price_step st row = Ok st' ∧ groups_inv st' ∧
    (∀ station_id category,
        row_matches station_id category row = false →
        entry st'.1 station_id category = entry st.1 station_id category ∧
        entry st'.2 station_id category = entry st.2 station_id category) ∧
    (∀ station_id category,
        row_matches station_id category row = true →
        match entry st.1 station_id category with
        | Some stored =>
            if flt p stored
            then entry st'.1 station_id category = Some p ∧
                 entry st'.2 station_id category = Some (date_of row)
            else entry st'.1 station_id category = Some stored ∧
                 entry st'.2 station_id category = entry st.2 station_id category
        | None =>
            entry st'.1 station_id category = Some p ∧
            entry st'.2 station_id category = Some (date_of row)
        end).
Proof.
  intros Hinv Hprice. destruct st as [pg pd].
  assert (Hsplit : ∀ station_id category,
             row_matches station_id category row = false →
             Price.idImpianto row ≠ station_id ∨
             get_main_fuel_category (Price.descCarburante row) ≠ category).
  { intros a c H. unfold row_matches in H. apply andb_false_iff in H as [H|H].
    - left. by apply Z.eqb_neq.
    - right. by apply String.eqb_neq. }
  assert (Hjoin : ∀ station_id category,
             row_matches station_id category row = true →
             Price.idImpianto row = station_id ∧
             get_main_fuel_category (Price.descCarburante row) = category).
  { intros a c H. unfold row_matches in H. apply andb_true_iff in H as [H1 H2].
    split; [by apply Z.eqb_eq | by apply String.eqb_eq]. }
  pose proof (Hinv (Price.idImpianto row)) as Hrow. simpl in Hrow.
  unfold price_step, date_of. rewrite Hprice.
  set (a := Price.idImpianto row) in *.
  set (c := get_main_fuel_category (Price.descCarburante row)) in *.
  set (v := default (VStr EmptyString) (Price.dtComu row)).
  destruct (pg !! a) as [g|] eqn:Hg, (pd !! a) as [d|] eqn:Hd; try done.
  - destruct Hrow as [Hdom Hne].
    unfold getitem. rewrite Hg. simpl.
    destruct (g !! c) as [stored|] eqn:Hc; simpl.
    + destruct (flt p stored) eqn:Hlt.
      * rewrite Hd. simpl. eexists. split; [done|].
        split; [by apply store_inv|]. simpl. split.
        -- intros b k Hm. rewrite !entry_insert.
           destruct (decide (a = b)) as [<-|]; [|done].
           destruct (Hsplit _ _ Hm) as [|Hk]; [done|].
           unfold entry. rewrite Hg, Hd. simpl.
           by rewrite !lookup_insert_ne.
        -- intros b k Hm. destruct (Hjoin _ _ Hm) as [<- <-].
           unfold entry at 1. rewrite Hg. simpl. rewrite Hc, Hlt.
           rewrite !entry_insert, !decide_True by done.
           by rewrite !lookup_insert_eq.
      * eexists. split; [done|]. split; [done|]. simpl. split; [done|].
        intros b k Hm. destruct (Hjoin _ _ Hm) as [<- <-].
        unfold entry at 1. rewrite Hg. simpl. rewrite Hc, Hlt.
        split; [|done]. unfold entry. rewrite Hg. simpl. done.
    + rewrite Hd. simpl. eexists. split; [done|].
      split; [by apply store_inv|]. simpl. split.
      * intros b k Hm. rewrite !entry_insert.
        destruct (decide (a = b)) as [<-|]; [|done].
        destruct (Hsplit _ _ Hm) as [|Hk]; [done|].
        unfold entry. rewrite Hg, Hd. simpl.
        by rewrite !lookup_insert_ne.
      * intros b k Hm. destruct (Hjoin _ _ Hm) as [<- <-].
        unfold entry at 1. rewrite Hg. simpl. rewrite Hc.
        rewrite !entry_insert, !decide_True by done.
        by rewrite !lookup_insert_eq.
  - unfold getitem. rewrite !lookup_insert_eq. simpl.
    rewrite lookup_empty. simpl. eexists. split; [done|].
    rewrite !insert_insert_eq. split.
    { apply store_inv; [done | by rewrite !dom_empty_L]. }
    simpl. split.
    + intros b k Hm. rewrite !entry_insert.
      destruct (decide (a = b)) as [<-|]; [|done].
      destruct (Hsplit _ _ Hm) as [|Hk]; [done|].
      unfold entry. rewrite Hg, Hd. simpl.
      by rewrite !lookup_insert_ne, !lookup_empty.
    + intros b k Hm. destruct (Hjoin _ _ Hm) as [<- <-].
      unfold entry at 1. rewrite Hg. simpl.
      rewrite !entry_insert, !decide_True by done.
      by rewrite !lookup_insert_eq.
Qed.

Lemma price_step_malformed
    (st : gmap Z (gmap string pyfloat) * gmap Z (gmap string pyval))
    (row : Price.row) :
  groups_inv st → malformed row → price_step st row = Raise ValueError.
Proof.
  intros Hinv Hbad. destruct st as [pg pd]. red in Hbad.
  pose proof (Hinv (Price.idImpianto row)) as Hrow. simpl in Hrow.
  unfold price_step. rewrite Hbad.
  destruct (pg !! Price.idImpianto row) as [g|] eqn:Hg.
  - unfold getitem. rewrite Hg. simpl. by destruct (g !! _).
  - unfold getitem. rewrite !lookup_insert_eq. simpl. by rewrite lookup_empty.
Qed.

Lemma iterrows_loop_app (l1 l2 : list Price.row)
    (st : gmap Z (gmap string pyfloat) * gmap Z (gmap string pyval)) :
  iterrows_loop (l1 ++ l2) st = iterrows_loop l1 st ≫= iterrows_loop l2.
Proof.
  revert st. induction l1 as [|row rest IH]; intros st; [done|].
  simpl. destruct (price_step st row) as [st'|e]; simpl; [apply IH | done].
Qed.

(** The invariant holds after every completed loop. *)
Lemma iterrows_loop_inv (rows : list Price.row)
    (st st' : gmap Z (gmap string pyfloat) * gmap Z (gmap string pyval)) :
  groups_inv st → iterrows_loop rows st = Ok st' → groups_inv st'.
Proof.
  revert st. induction rows as [|row rest IH]; intros st Hinv Hrun; simpl in Hrun.
  - by injection Hrun as <-.
  - destruct (Price.prezzo row) as [p|] eqn:Hp.
    + destruct (price_step_number st row p Hinv Hp) as (st1 & Hstep & Hinv1 & _).
      rewrite Hstep in Hrun. simpl in Hrun. by eapply IH.
    + rewrite (price_step_malformed st row Hinv Hp) in Hrun. done.
Qed.

(** A price that is not a number stops the loop with [ValueError]. *)
Lemma iterrows_loop_malformed (rows : list Price.row)
    (st : gmap Z (gmap string pyfloat) * gmap Z (gmap string pyval)) :
  groups_inv st → Exists malformed rows →
  iterrows_loop rows st = Raise ValueError.
Proof.
  revert st. induction rows as [|row rest IH]; intros st Hinv Hex.
  - by apply Exists_nil in Hex.
  - simpl. destruct (Price.prezzo row) as [p|] eqn:Hp.
    + destruct (price_step_number st row p Hinv Hp) as (st1 & Hstep & Hinv1 & _).
      rewrite Hstep. simpl. apply IH; [done|].
      apply Exists_cons in Hex as [Hbad|Hex]; [|done].
      red in Hbad. congruence.
    + by rewrite (price_step_malformed st row Hinv Hp).
Qed.

(** Without such a price the loop completes. *)
Lemma iterrows_loop_numbers (rows : list Price.row)
    (st : gmap Z (gmap string pyfloat) * gmap Z (gmap string pyval)) :
  groups_inv st → Forall (λ row, ¬ malformed row) rows →
  ∃ st', iterrows_loop rows st = Ok st'.
Proof.
  revert st. induction rows as [|row rest IH]; intros st Hinv Hall.
  - by eexists.
  - apply Forall_cons in Hall as [Hrow Hall]. simpl.
    destruct (Price.prezzo row) as [p|] eqn:Hp; [|done].
    destruct (price_step_number st row p Hinv Hp) as (st1 & Hstep & Hinv1 & _).
    rewrite Hstep. simpl. by apply IH.
Qed.

Lemma filter_snoc {A : Type} (f : A → bool) (l : list A) (x : A) :
  List.filter f (l ++ [x]) = List.filter f l ++ (if f x then [x] else []).
Proof. rewrite List.filter_app. simpl. by destruct (f x). Qed.

(** The loop keeps, for every station and category, the first cheapest of
    their rows, as long as every price is a number. *)
Lemma iterrows_loop_cheapest (rows : list Price.row) :
  Forall priced rows →
  ∃ st, iterrows_loop rows (∅, ∅) = Ok st ∧ groups_inv st ∧
        ∀ station_id category, cheapest_entry rows st station_id category.
Proof.
  induction rows as [|row rows IH] using rev_ind; intros Hall.
  - exists (∅, ∅). split; [done|]. split; [apply groups_inv_empty|].
    intros a c. left. unfold entry. simpl. by rewrite !lookup_empty.
  - apply Forall_app in Hall as [Hall Hrow].
    apply Forall_cons in Hrow as [(x & Hx & Hnan) _].
    destruct (IH Hall) as (st & Hrun & Hinv & Hbest).
    destruct (price_step_number st row x Hinv Hx)
      as (st' & Hstep & Hinv' & Hother & Hsame).
    exists st'. split; [|split; [done|]].
    { rewrite iterrows_loop_app, Hrun. simpl. by rewrite Hstep. }
    intros a c. unfold cheapest_entry. rewrite filter_snoc.
    destruct (row_matches a c row) eqn:Hm.
    + specialize (Hsame a c Hm).
      destruct (Hbest a c) as [(Hnil & Hg & Hd)|
        (before & best & after & p & Hmine & Hp & Hg & Hd & Hbefore & Hafter)].
      * right. rewrite Hg in Hsame. destruct Hsame as [Hg' Hd'].
        exists [], row, [], x. rewrite Hnil. by repeat split.
      * right. rewrite Hg in Hsame. destruct (flt x p) eqn:Hlt.
        -- destruct Hsame as [Hg' Hd'].
           exists (before ++ best :: after), row, [], x.
           rewrite Hmine. repeat split; try done.
           apply Forall_app. split; [|apply Forall_cons; split].
           ++ eapply Forall_impl; [exact Hbefore|].
              intros r (y & Hy & Hpy). exists y. split; [done|].
              apply (flt_le_trans x p y); [|done|by apply flt_asym].
              by apply flt_true_not_nan in Hpy as [_ ?].
           ++ exists p. split; [done|done].
           ++ eapply Forall_impl; [exact Hafter|].
              intros r (y & Hy & Hny & Hyp). exists y. split; [done|].
              by apply (flt_le_trans x p y).
        -- destruct Hsame as [Hg' Hd'].
           exists before, best, (after ++ [row]), p.
           rewrite Hmine, <- app_assoc. simpl.
           repeat split; try done; [congruence|].
           apply Forall_app. split; [done|].
           apply Forall_cons. split; [by exists x | done].
    + destruct (Hother a c Hm) as [Hg' Hd']. rewrite app_nil_r.
      destruct (Hbest a c) as [(Hnil & Hg & Hd)|
        (before & best & after & p & Hmine & Hp & Hg & Hd & Hbefore & Hafter)].
      * left. repeat split; congruence.
      * right. exists before, best, after, p. repeat split; try done; congruence.
Qed.

(** ** The frames *)

Lemma select_ok {A : Type} (mask : A → outcome bool) (g : A → bool) (rows : list A) :
  Forall (λ r, mask r = Ok (g r)) rows →
  select mask rows = Ok (List.filter g rows).
Proof.
  induction 1 as [|r rest Hr _ IH]; [done|].
  simpl. rewrite Hr, IH. simpl. done.
Qed.

Lemma filter_map_comm {A B : Type} (f : A → B) (g : B → bool) (l : list A) :
  List.filter g (map f l) = map f (List.filter (λ x, g (f x)) l).
Proof.
  induction l as [|x l IH]; [done|].
  simpl. destruct (g (f x)); simpl; by rewrite IH.
Qed.

Lemma filter_filter_and {A : Type} (f g : A → bool) (l : list A) :
  List.filter g (List.filter f l) = List.filter (λ x, f x && g x) l.
Proof.
  induction l as [|x l IH]; [done|].
  simpl. destruct (f x); simpl; [destruct (g x)|]; by rewrite IH.
Qed.

Lemma filter_sublist {A : Type} (f : A → bool) (l : list A) :
  List.filter f l `sublist_of` l.
Proof.
  induction l as [|x l IH]; simpl; [constructor|].
  destruct (f x); by constructor.
Qed.

Lemma coordinates_mask_enrich pg pd st :
  coordinates_mask (enrich pg pd st) = Ok (coerced_mask (enrich pg pd st)).
Proof.
  unfold coordinates_mask, coerced_mask, enrich. simpl.
  by destruct (Station.Latitudine st), (Station.Longitudine st).
Qed.

Lemma enrich_survives pg pd st :
  negb (isna (Station.Latitudine (enrich pg pd st))
        || isna (Station.Longitudine (enrich pg pd st)))
  && coerced_mask (enrich pg pd st) = coordinates_ok st.
Proof.
  unfold coerced_mask, coordinates_ok, enrich. simpl.
  destruct (Station.Latitudine st) as [[lat| | |]|],
           (Station.Longitudine st) as [[lon| | |]|];
    cbn [isna is_nan to_numeric fne fle negb orb andb]; try done;
    repeat match goal with
           | |- context [Qeq_bool ?a ?b] => destruct (Qeq_bool a b)
           | |- context [Qle_bool ?a ?b] => destruct (Qle_bool a b)
           end; done.
Qed.

Lemma select_prices_notna pg pd (rows : list Station.row) :
  select prices_notna (assign_priceDates pd (assign_prices pg rows)) =
  Ok (assign_priceDates pd (assign_prices pg (List.filter (has_prices pg) rows))).
Proof.
  unfold assign_priceDates, assign_prices. rewrite !map_map.
  erewrite select_ok
    with (g := λ r : Station.row,
                 bool_decide (is_Some (default None (Station.prices r)))).
  - by rewrite filter_map_comm.
  - apply Forall_map, Forall_forall. by intros r _.
Qed.

Lemma coerce_assign pg pd (rows : list Station.row) :
  coerce_Longitudine (coerce_Latitudine
    (assign_priceDates pd (assign_prices pg rows))) = map (enrich pg pd) rows.
Proof.
  unfold coerce_Longitudine, coerce_Latitudine, assign_priceDates, assign_prices.
  rewrite !map_map. by apply map_ext.
Qed.

Lemma select_coordinates_mask pg pd (rows : list Station.row) :
  select coordinates_mask (dropna (map (enrich pg pd) rows)) =
  Ok (map (enrich pg pd) (List.filter coordinates_ok rows)).
Proof.
  unfold dropna. rewrite filter_map_comm.
  erewrite select_ok with (g := coerced_mask).
  - rewrite filter_map_comm, filter_filter_and. f_equal. f_equal.
    apply List.filter_ext. intros st. apply enrich_survives.
  - apply Forall_map, Forall_forall. intros r _. apply coordinates_mask_enrich.
Qed.

(** A run of [clean_and_merge_data] whose loop over the prices completes:
    the frame it returns is new and holds the enriched rows of the stations
    that have prices and good coordinates; the frame it was given has the
    two new columns; no other frame changes. *)
Lemma clean_and_merge_data_ok (h : heap) (prices_df stations_df : nat)
    (pg : gmap Z (gmap string pyfloat)) (pd : gmap Z (gmap string pyval)) :
  iterrows_loop (price_frames h prices_df) (∅, ∅) = Ok (pg, pd) →
  ∃ h',
    clean_and_merge_data prices_df stations_df h = (Ok (S (S (next_frame h))), h') ∧
    price_frames h' = price_frames h ∧
    next_frame h' = S (S (S (next_frame h))) ∧
    station_frames h' (S (S (next_frame h))) =
      map (enrich pg pd)
        (List.filter (λ st, has_prices pg st && coordinates_ok st)
           (station_frames h stations_df)) ∧
    (stations_df < next_frame h →
     station_frames h' stations_df =
       assign_priceDates pd (assign_prices pg (station_frames h stations_df)))%nat ∧
    (∀ i, i < next_frame h → i ≠ stations_df →
          station_frames h' i = station_frames h i)%nat.
Proof.
  intros Hloop.
  unfold clean_and_merge_data, try_except_exit_py.
  unfold mbind, py_bind, read_prices, lift. rewrite Hloop.
  unfold read_stations, write_stations, new_stations, mret, py_ret.
  cbn [fst snd station_frames price_frames next_frame].
  rewrite !Nat.eqb_refl.
  rewrite select_prices_notna, coerce_assign, select_coordinates_mask.
  rewrite filter_filter_and.
  eexists. split; [reflexivity|].
  cbn [fst snd station_frames price_frames next_frame].
  rewrite !Nat.eqb_refl.
  split; [done|]. split; [done|]. split; [done|]. split.
  - intros Hlive.
    repeat match goal with
           | |- context [Nat.eqb ?a ?b] => destruct (Nat.eqb_spec a b); try lia
           end; done.
  - intros i Hlive Hne.
    repeat match goal with
           | |- context [Nat.eqb ?a ?b] => destruct (Nat.eqb_spec a b); try lia
           end; done.
Qed.

(** A run whose loop over the prices raises: the handler exits with status
    1 before any frame is touched. *)
Lemma clean_and_merge_data_raise (h : heap) (prices_df stations_df : nat) :
  iterrows_loop (price_frames h prices_df) (∅, ∅) = Raise ValueError →
  clean_and_merge_data prices_df stations_df h = (Raise (SystemExit 1), h).
Proof.
  intros Hloop.
  unfold clean_and_merge_data, try_except_exit_py.
  unfold mbind, py_bind, read_prices, lift. by rewrite Hloop.
Qed.

Lemma malformed_or_not (rows : list Price.row) :
  Forall (λ row, ¬ malformed row) rows ∨ Exists malformed rows.
Proof.
  induction rows as [|row rest [IH|IH]].
  - left. constructor.
  - destruct (Price.prezzo row) as [p|] eqn:Hp.
    + left. constructor; [|done]. unfold malformed. congruence.
    + right. by apply Exists_cons_hd.
  - right. by apply Exists_cons_tl.
Qed.

(** The loop raises nothing but [ValueError]. *)
Lemma iterrows_loop_outcome (rows : list Price.row) :
  (∃ st, iterrows_loop rows (∅, ∅) = Ok st ∧ groups_inv st ∧
         Forall (λ row, ¬ malformed row) rows) ∨
  (iterrows_loop rows (∅, ∅) = Raise ValueError ∧ Exists malformed rows).
Proof.
  destruct (malformed_or_not rows) as [Hall|Hex].
  - left.
    destruct (iterrows_loop_numbers rows (∅, ∅) groups_inv_empty Hall) as [st Hst].
    exists st. split; [done|]. split; [|done].
    eapply iterrows_loop_inv; [apply groups_inv_empty | done].
  - right. split; [|done].
    apply iterrows_loop_malformed; [apply groups_inv_empty | done].
Qed.

(** Every completed run of [clean_and_merge_data] is of that kind. *)
Lemma clean_and_merge_data_inv (h h' : heap) (prices_df stations_df r : nat) :
  clean_and_merge_data prices_df stations_df h = (Ok r, h') →
  ∃ pg pd,
    iterrows_loop (price_frames h prices_df) (∅, ∅) = Ok (pg, pd) ∧
    groups_inv (pg, pd) ∧
    Forall (λ row, ¬ malformed row) (price_frames h prices_df) ∧
    r = S (S (next_frame h)) ∧
    price_frames h' = price_frames h ∧
    station_frames h' r =
      map (enrich pg pd)
        (List.filter (λ st, has_prices pg st && coordinates_ok st)
           (station_frames h stations_df)) ∧
    (stations_df < next_frame h →
     station_frames h' stations_df =
       assign_priceDates pd (assign_prices pg (station_frames h stations_df)))%nat ∧
    (∀ i, i < next_frame h → i ≠ stations_df →
          station_frames h' i = station_frames h i)%nat.
Proof.
  intros Hrun.
  destruct (iterrows_loop_outcome (price_frames h prices_df))
    as [([pg pd] & Hloop & Hinv & Hall)|[Hloop _]].
  - destruct (clean_and_merge_data_ok h prices_df stations_df pg pd Hloop)
      as (h1 & Hrun1 & Hp & _ & Hout & Hin & Hrest).
    rewrite Hrun1 in Hrun. injection Hrun as <- <-.
    exists pg, pd. by repeat split.
  - rewrite (clean_and_merge_data_raise h prices_df stations_df Hloop) in Hrun.
    discriminate.
Qed.

(** ** The features *)

Lemma make_feature_enrich pg pd (st : Station.row) :
  ∃ f, make_feature (enrich pg pd st) = Ok f.
Proof.
  unfold make_feature, enrich. simpl.
  destruct (Station.Longitudine st), (Station.Latitudine st); simpl; by eexists.
Qed.

Lemma make_feature_inv (row : Station.row) (f : GeoJSON.feature) :
  make_feature row = Ok f →
  ∃ lon lat station_prices,
    Station.Longitudine row = Num lon ∧
    Station.Latitudine row = Num lat ∧
    Station.prices row = Some station_prices ∧
    f = {| GeoJSON.feature_type := "Feature";
           GeoJSON.geometry_of :=
             {| GeoJSON.geometry_type := "Point";
                GeoJSON.coordinates := [lon; lat] |};
           GeoJSON.properties_of :=
             {| GeoJSON.idImpianto := Station.idImpianto row;
                GeoJSON.Gestore := get_str (Station.Gestore row);
                GeoJSON.Bandiera := get_str (Station.Bandiera row);
                GeoJSON.TipoImpianto := get_str (Station.Tipo_Impianto row);
                GeoJSON.NomeImpianto := get_str (Station.Nome_Impianto row);
                GeoJSON.Indirizzo := get_str (Station.Indirizzo row);
                GeoJSON.Comune := get_str (Station.Comune row);
                GeoJSON.Provincia := get_str (Station.Provincia row);
                GeoJSON.prices := station_prices;
                GeoJSON.priceDates :=
                  default (Some ∅) (Station.priceDates row) |} |}.
Proof.
  unfold make_feature.
  destruct (Station.Longitudine row) as [lon|]; [|done].
  destruct (Station.Latitudine row) as [lat|]; [|done].
  destruct (Station.prices row) as [station_prices|]; [|done].
  simpl. intros [= <-]. by exists lon, lat, station_prices.
Qed.

Lemma make_features_Forall2 (rows : list Station.row) (fs : list GeoJSON.feature) :
  make_features rows = Ok fs ↔ Forall2 (λ row f, make_feature row = Ok f) rows fs.
Proof.
  revert fs. induction rows as [|row rest IH]; intros fs; simpl.
  - split; [intros [= <-]; constructor | by intros ->%Forall2_nil_inv_l].
  - split.
    + destruct (make_feature row) as [f|] eqn:Hf; [|done]. simpl.
      destruct (make_features rest) as [fs'|] eqn:Hfs; [|done]. simpl.
      intros [= <-]. constructor; [done | by apply IH].
    + intros (f & fs' & Hf & Hfs & ->)%Forall2_cons_inv_l.
      apply IH in Hfs. by rewrite Hf, Hfs.
Qed.

Lemma make_features_enrich pg pd (rows : list Station.row) :
  ∃ fs, make_features (map (enrich pg pd) rows) = Ok fs.
Proof.
  induction rows as [|st rest [fs IH]]; simpl; [by eexists|].
  destruct (make_feature_enrich pg pd st) as [f Hf].
  rewrite Hf, IH. simpl. by eexists.
Qed.

Lemma create_geojson_ok (h : heap) (df : nat) (fs : list GeoJSON.feature) :
  make_features (station_frames h df) = Ok fs →
  create_geojson df h =
    (Ok {| GeoJSON.document_type := "FeatureCollection"; GeoJSON.features := fs |}, h).
Proof.
  intros Hfs. unfold create_geojson, try_except_exit_py.
  unfold mbind, py_bind, read_stations, lift. by rewrite Hfs.
Qed.

Lemma create_geojson_inv (h h' : heap) (df : nat) (doc : GeoJSON.document) :
  create_geojson df h = (Ok doc, h') →
  h' = h ∧ GeoJSON.document_type doc = "FeatureCollection" ∧
  make_features (station_frames h df) = Ok (GeoJSON.features doc).
Proof.
  unfold create_geojson, try_except_exit_py.
  unfold mbind, py_bind, read_stations, lift.
  destruct (make_features (station_frames h df)) as [fs|e]; simpl.
  - by intros [= <- <-].
  - by destruct e.
Qed.

(** Every completed run of the whole pipeline. *)
Lemma process_inv (h h' : heap) (prices_df stations_df : nat)
    (doc : GeoJSON.document) :
  process prices_df stations_df h = (Ok doc, h') →
  ∃ pg pd kept,
    clean_and_merge_data prices_df stations_df h = (Ok (S (S (next_frame h))), h') ∧
    iterrows_loop (price_frames h prices_df) (∅, ∅) = Ok (pg, pd) ∧
    groups_inv (pg, pd) ∧
    kept = List.filter (λ st, has_prices pg st && coordinates_ok st)
             (station_frames h stations_df) ∧
    station_frames h' (S (S (next_frame h))) = map (enrich pg pd) kept ∧
    GeoJSON.document_type doc = "FeatureCollection" ∧
    Forall2 (λ st f, make_feature (enrich pg pd st) = Ok f) kept (GeoJSON.features doc).
Proof.
  unfold process. unfold mbind at 1. unfold py_bind.
  destruct (clean_and_merge_data prices_df stations_df h) as [[r|e] h1] eqn:Hrun;
    [|done].
  intros Hdoc. apply create_geojson_inv in Hdoc as (-> & Hty & Hfs).
  destruct (clean_and_merge_data_inv _ _ _ _ _ Hrun)
    as (pg & pd & Hloop & Hinv & _ & -> & _ & Hout & _).
  eexists pg, pd, _. repeat split; try done.
  rewrite Hout in Hfs. apply make_features_Forall2 in Hfs.
  by apply Forall2_fmap_l in Hfs.
Qed.

(** The pipeline completes whenever the merge does. *)
Lemma process_ok (h h' : heap) (prices_df stations_df r : nat) :
  clean_and_merge_data prices_df stations_df h = (Ok r, h') →
  ∃ doc, create_geojson r h' = (Ok doc, h') ∧
         process prices_df stations_df h = (Ok doc, h').
Proof.
  intros Hrun.
  destruct (clean_and_merge_data_inv _ _ _ _ _ Hrun)
    as (pg & pd & _ & _ & _ & _ & _ & Hout & _).
  destruct (make_features_enrich pg pd
              (List.filter (λ st, has_prices pg st && coordinates_ok st)
                 (station_frames h stations_df))) as [fs Hfs].
  rewrite <- Hout in Hfs. eexists. split; [by apply create_geojson_ok|].
  unfold process. unfold mbind at 1. unfold py_bind. rewrite Hrun.
  by apply create_geojson_ok.
Qed.

(** ** The statements of the specification *)

(** C2. When every price is a number, the merge completes and every station
    row it returns carries the station's entries of [price_groups] and
    [price_dates]; for every station and category the stored price is the
    price of one of the station's rows of that category, no such row has a
    lower price, and price and date are those of the first such row with
    that price: the rows before it are strictly dearer, so a later row
    replaces an entry only with a strictly lower price and the first seen
    wins among equal prices. *)
Theorem cheapest_price_per_category (h : heap) (prices_df stations_df : nat) :
  Forall priced (price_frames h prices_df) →
  ∃ r h' pg pd,
    clean_and_merge_data prices_df stations_df h = (Ok r, h') ∧
    iterrows_loop (price_frames h prices_df) (∅, ∅) = Ok (pg, pd) ∧
    (∀ row, row ∈ station_frames h' r →
        Station.prices row = Some (pg !! Station.idImpianto row) ∧
        Station.priceDates row = Some (pd !! Station.idImpianto row)) ∧
    ∀ station_id category,
      cheapest_entry (price_frames h prices_df) (pg, pd) station_id category ∧
      ∀ p, entry pg station_id category = Some p →
           Forall (λ row, ∃ x, Price.prezzo row = Num x ∧ flt x p = false)
             (List.filter (row_matches station_id category)
                (price_frames h prices_df)).
Proof.
  intros Hall.
  destruct (iterrows_loop_cheapest _ Hall) as ([pg pd] & Hloop & Hinv & Hbest).
  destruct (clean_and_merge_data_ok h prices_df stations_df pg pd Hloop)
    as (h' & Hrun & _ & _ & Hout & _).
  exists (S (S (next_frame h))), h', pg, pd.
  split; [done|]. split; [done|]. split.
  - intros row. rewrite Hout, list_elem_of_In, in_map_iff.
    by intros (st & <- & _).
  - intros a c. split; [apply Hbest|]. intros p Hp.
    destruct (Hbest a c) as [(_ & Hnone & _)|
      (before & best & after & q & Hmine & Hq & Hg & _ & Hbefore & Hafter)];
      simpl in *; [congruence|].
    assert (q = p) as -> by congruence.
    rewrite Hmine. apply Forall_app. split; [|apply Forall_cons; split].
    + eapply Forall_impl; [exact Hbefore|].
      intros row (x & Hx & Hlt). exists x. split; [done | by apply flt_asym].
    + exists p. split; [done | apply flt_irrefl].
    + eapply Forall_impl; [exact Hafter|].
      intros row (x & Hx & _ & Hge). by exists x.
Qed.

Lemma cheapest_price_per_category_witness :
  ∃ r h' pg pd,
    clean_and_merge_data 0 0 sample_store = (Ok r, h') ∧
    iterrows_loop (price_frames sample_store 0) (∅, ∅) = Ok (pg, pd) ∧
    (∀ row, row ∈ station_frames h' r →
        Station.prices row = Some (pg !! Station.idImpianto row) ∧
        Station.priceDates row = Some (pd !! Station.idImpianto row)) ∧
    ∀ station_id category,
      cheapest_entry (price_frames sample_store 0) (pg, pd) station_id category ∧
      ∀ p, entry pg station_id category = Some p →
           Forall (λ row, ∃ x, Price.prezzo row = Num x ∧ flt x p = false)
             (List.filter (row_matches station_id category)
                (price_frames sample_store 0)).
Proof.
  apply (cheapest_price_per_category sample_store 0 0).
  repeat constructor; by eexists.
Defined.

(** A price that is NaN (an empty field of the CSV) is outside the
    hypothesis: compared with anything it is never lower and nothing is
    lower than it, so once stored it stays. *)
Example nan_price_stays :
  ∃ st, iterrows_loop
          [ price_row 1 "Benzina" (Num NaN) "01/03/2024 08:00:00";
            price_row 1 "Benzina" (Num (Fin 1.750)) "02/03/2024 08:00:00" ]
          (∅, ∅) = Ok st ∧
        entry st.1 1 "Benzina" = Some NaN.
Proof. eexists. split; reflexivity. Qed.

(** The example of the specification: 1.899 then 1.750 in one category. *)
Example sample_cheapest :
  ∃ st, iterrows_loop sample_prices (∅, ∅) = Ok st ∧
        entry st.1 1 "Benzina" = Some (Fin 1.750) ∧
        entry st.2 1 "Benzina" = Some (VStr "02/03/2024 08:00:00").
Proof. eexists. split; [reflexivity|]. split; reflexivity. Qed.

Lemma coordinates_ok_valid (st : Station.row) :
  coordinates_ok st = true ↔ coordinates_valid st.
Proof.
  unfold coordinates_ok, coordinates_valid. split.
  - destruct (Station.Latitudine st) as [[lat| | |]|]; try done.
    destruct (Station.Longitudine st) as [[lon| | |]|]; try done.
    rewrite !andb_true_iff, !negb_true_iff, !Qle_bool_iff.
    intros [[[[[Hlat Hlon] ?] ?] ?] ?]. exists lat, lon.
    repeat split; try done.
    + intros Heq. apply Qeq_bool_iff in Heq. congruence.
    + intros Heq. apply Qeq_bool_iff in Heq. congruence.
  - intros (lat & lon & -> & -> & ? & ? & ? & ? & Hlat & Hlon).
    rewrite !andb_true_iff, !negb_true_iff, !Qle_bool_iff.
    repeat split; try done.
    + destruct (Qeq_bool lat 0) eqn:E; [|done].
      apply Qeq_bool_iff in E. done.
    + destruct (Qeq_bool lon 0) eqn:E; [|done].
      apply Qeq_bool_iff in E. done.
Qed.

(** Coercion leaves good coordinates as they are. *)
Lemma coordinates_valid_enrich pg pd (st : Station.row) :
  coordinates_valid st → coordinates_valid (enrich pg pd st).
Proof.
  intros (lat & lon & Hlat & Hlon & H). exists lat, lon.
  unfold enrich. simpl. rewrite Hlat, Hlon. simpl. by split.
Qed.

(** C3. Every station row that the merge returns has numeric coordinates,
    the latitude in [35, 48], the longitude in [6, 19], none of them zero.
    The rows returned are the enriched rows of a subsequence of the input
    stations, and every station of that subsequence already had such
    coordinates: a station whose coordinate is not a number, is zero or is
    out of range is not among them. *)
Theorem output_coordinates_valid (h h' : heap) (prices_df stations_df r : nat) :
  clean_and_merge_data prices_df stations_df h = (Ok r, h') →
  (∀ row, row ∈ station_frames h' r → coordinates_valid row) ∧
  ∃ pg pd kept,
    station_frames h' r = map (enrich pg pd) kept ∧
    kept `sublist_of` station_frames h stations_df ∧
    (∀ st, st ∈ kept → coordinates_valid st) ∧
    (∀ st, st ∈ station_frames h stations_df → ¬ coordinates_valid st → st ∉ kept).
Proof.
  intros Hrun.
  destruct (clean_and_merge_data_inv _ _ _ _ _ Hrun)
    as (pg & pd & _ & _ & _ & _ & _ & Hout & _).
  assert (Hkept : ∀ st,
             st ∈ List.filter (λ st, has_prices pg st && coordinates_ok st)
                    (station_frames h stations_df) → coordinates_valid st).
  { intros st. rewrite list_elem_of_In, filter_In, andb_true_iff.
    intros (_ & _ & Hok). by apply coordinates_ok_valid. }
  split.
  - intros row. rewrite Hout, list_elem_of_In, in_map_iff.
    intros (st & <- & Hin). apply coordinates_valid_enrich, Hkept.
    by apply list_elem_of_In.
  - eexists pg, pd, _. split; [exact Hout|]. split; [apply filter_sublist|].
    split; [exact Hkept|]. intros st _ Hbad Hin. by apply Hbad, Hkept.
Qed.

Lemma output_coordinates_valid_witness :
  (∀ row, row ∈ station_frames sample_merged 3 → coordinates_valid row) ∧
  ∃ pg pd kept,
    station_frames sample_merged 3 = map (enrich pg pd) kept ∧
    kept `sublist_of` station_frames sample_store 0 ∧
    (∀ st, st ∈ kept → coordinates_valid st) ∧
    (∀ st, st ∈ station_frames sample_store 0 → ¬ coordinates_valid st → st ∉ kept).
Proof.
  apply (output_coordinates_valid sample_store sample_merged 0 0 3).
  vm_compute. reflexivity.
Defined.

(** The examples of the specification: latitude 0 is dropped, a station
    near Rome with a price is kept. *)
Example sample_merged_ids :
  map Station.idImpianto (station_frames sample_merged 3) = [1; 4].
Proof. reflexivity. Qed.

(** A station gets a dictionary only from one of its price rows. *)
Lemma iterrows_loop_stations (rows : list Price.row)
    (st st' : gmap Z (gmap string pyfloat) * gmap Z (gmap string pyval))
    (station_id : Z) :
  groups_inv st → iterrows_loop rows st = Ok st' →
  is_Some (st'.1 !! station_id) →
  is_Some (st.1 !! station_id) ∨
  ∃ row, row ∈ rows ∧ Price.idImpianto row = station_id.
Proof.
  revert st. induction rows as [|row rest IH]; intros st Hinv Hrun Hsome;
    simpl in Hrun.
  - injection Hrun as <-. by left.
  - destruct (Price.prezzo row) as [p|] eqn:Hp;
      [|by rewrite (price_step_malformed st row Hinv Hp) in Hrun].
    destruct (price_step_number st row p Hinv Hp)
      as (st1 & Hstep & Hinv1 & Hother & _).
    rewrite Hstep in Hrun. simpl in Hrun.
    destruct (IH st1 Hinv1 Hrun Hsome) as [[g Hg]|(r & Hin & Hid)].
    + destruct (decide (Price.idImpianto row = station_id)) as [Heq|Hne].
      * right. exists row. split; [apply list_elem_of_here | done].
      * left. pose proof (Hinv1 station_id) as H1. rewrite Hg in H1.
        destruct (st1.2 !! station_id); [|done]. destruct H1 as [_ Hnonempty].
        apply map_choose in Hnonempty as (category & v & Hv).
        destruct (Hother station_id category) as [Hsame _].
        { unfold row_matches. apply andb_false_iff. left. by apply Z.eqb_neq. }
        unfold entry in Hsame. rewrite Hg in Hsame. simpl in Hsame.
        rewrite Hv in Hsame. destruct (st.1 !! station_id); [by eexists | done].
    + right. exists r. split; [by apply list_elem_of_further | done].
Qed.

(** C4. Every station row that the merge returns, and every feature that is
    emitted from it, carries a price dictionary with at least one entry; a
    station whose identifier is in no price row has no row in the result
    of the merge and no feature in the output. *)
Theorem stations_without_prices_dropped (h h' : heap)
    (prices_df stations_df r : nat) :
  clean_and_merge_data prices_df stations_df h = (Ok r, h') →
  (∀ row, row ∈ station_frames h' r →
      ∃ g category p,
        Station.prices row = Some (Some g) ∧ g !! category = Some p) ∧
  (∀ st, st ∈ station_frames h stations_df →
      (∀ row, row ∈ price_frames h prices_df →
              Price.idImpianto row ≠ Station.idImpianto st) →
      ∀ row, row ∈ station_frames h' r →
             Station.idImpianto row ≠ Station.idImpianto st) ∧
  ∃ doc,
    process prices_df stations_df h = (Ok doc, h') ∧
    (∀ f, f ∈ GeoJSON.features doc →
        ∃ g category p,
          GeoJSON.prices (GeoJSON.properties_of f) = Some g ∧
          g !! category = Some p) ∧
    (∀ st, st ∈ station_frames h stations_df →
        (∀ row, row ∈ price_frames h prices_df →
                Price.idImpianto row ≠ Station.idImpianto st) →
        ∀ f, f ∈ GeoJSON.features doc →
             GeoJSON.idImpianto (GeoJSON.properties_of f) ≠ Station.idImpianto st).
Proof.
  intros Hrun.
  destruct (process_ok _ _ _ _ _ Hrun) as (doc & _ & Hdoc).
  destruct (process_inv _ _ _ _ _ Hdoc)
    as (pg & pd & kept & Hrun' & Hloop & Hinv & Hkept & Hout & _ & Hfs).
  assert (r = S (S (next_frame h))) as -> by congruence.
  assert (Hpriced : ∀ st, st ∈ kept →
            (∃ g category p,
                pg !! Station.idImpianto st = Some g ∧ g !! category = Some p) ∧
            ∃ row, row ∈ price_frames h prices_df ∧
                   Price.idImpianto row = Station.idImpianto st).
  { intros st. rewrite Hkept, list_elem_of_In, filter_In, andb_true_iff.
    intros (_ & Hhas & _). unfold has_prices in Hhas.
    apply bool_decide_eq_true in Hhas. split.
    - destruct Hhas as [g Hg]. pose proof (Hinv (Station.idImpianto st)) as H1.
      simpl in H1. rewrite Hg in H1.
      destruct (pd !! Station.idImpianto st); [|done]. destruct H1 as [_ Hne].
      apply map_choose in Hne as (category & p & Hp). by exists g, category, p.
    - destruct (iterrows_loop_stations _ _ _ (Station.idImpianto st)
                  groups_inv_empty Hloop Hhas) as [[g Hg]|Hrow]; [|done].
      simpl in Hg. by rewrite lookup_empty in Hg. }
  assert (Hfeature : ∀ f, f ∈ GeoJSON.features doc →
            ∃ st, st ∈ kept ∧ make_feature (enrich pg pd st) = Ok f).
  { intros f Hf. apply list_elem_of_lookup in Hf as [i Hi].
    destruct (Forall2_lookup_r _ _ _ _ _ Hfs Hi) as (st & Hst & Hmk).
    exists st. split; [by eapply list_elem_of_lookup_2 | done]. }
  split; [|split].
  - intros row. rewrite Hout, list_elem_of_In, in_map_iff.
    intros (st & <- & Hin). apply list_elem_of_In in Hin.
    destruct (Hpriced st Hin) as [(g & category & p & Hg & Hp) _].
    exists g, category, p. simpl. by rewrite Hg.
  - intros st _ Hnone row. rewrite Hout, list_elem_of_In, in_map_iff.
    intros (st' & <- & Hin). apply list_elem_of_In in Hin.
    destruct (Hpriced st' Hin) as [_ (prow & Hprow & Hid)].
    simpl. intros Heq. apply (Hnone prow Hprow). congruence.
  - exists doc. split; [done|]. split.
    + intros f Hf. destruct (Hfeature f Hf) as (st & Hin & Hmk).
      destruct (Hpriced st Hin) as [(g & category & p & Hg & Hp) _].
      apply make_feature_inv in Hmk as (lon & lat & sp & _ & _ & Hsp & ->).
      simpl in *. exists g, category, p. split; [congruence | done].
    + intros st _ Hnone f Hf. destruct (Hfeature f Hf) as (st' & Hin & Hmk).
      destruct (Hpriced st' Hin) as [_ (prow & Hprow & Hid)].
      apply make_feature_inv in Hmk as (lon & lat & sp & _ & _ & _ & ->).
      simpl. intros Heq. apply (Hnone prow Hprow). congruence.
Qed.

Lemma stations_without_prices_dropped_witness :
  (∀ row, row ∈ station_frames sample_merged 3 →
      ∃ g category p,
        Station.prices row = Some (Some g) ∧ g !! category = Some p) ∧
  (∀ st, st ∈ station_frames sample_store 0 →
      (∀ row, row ∈ price_frames sample_store 0 →
              Price.idImpianto row ≠ Station.idImpianto st) →
      ∀ row, row ∈ station_frames sample_merged 3 →
             Station.idImpianto row ≠ Station.idImpianto st) ∧
  ∃ doc,
    process 0 0 sample_store = (Ok doc, sample_merged) ∧
    (∀ f, f ∈ GeoJSON.features doc →
        ∃ g category p,
          GeoJSON.prices (GeoJSON.properties_of f) = Some g ∧
          g !! category = Some p) ∧
    (∀ st, st ∈ station_frames sample_store 0 →
        (∀ row, row ∈ price_frames sample_store 0 →
                Price.idImpianto row ≠ Station.idImpianto st) →
        ∀ f, f ∈ GeoJSON.features doc →
             GeoJSON.idImpianto (GeoJSON.properties_of f) ≠ Station.idImpianto st).
Proof.
  apply (stations_without_prices_dropped sample_store sample_merged 0 0 3).
  vm_compute. reflexivity.
Defined.

(** C5. From the frame of N station rows that the merge returns,
    [create_geojson] builds a FeatureCollection of exactly N features, the
    i-th from the i-th row; the geometry of each is a Point whose
    coordinates are the longitude of the row followed by its latitude. *)
Theorem features_match_stations (h h' : heap) (prices_df stations_df r : nat) :
  clean_and_merge_data prices_df stations_df h = (Ok r, h') →
  ∃ doc,
    create_geojson r h' = (Ok doc, h') ∧
    GeoJSON.document_type doc = "FeatureCollection" ∧
    length (GeoJSON.features doc) = length (station_frames h' r) ∧
    Forall2
      (λ row f,
         ∃ lon lat,
           Station.Longitudine row = Num lon ∧
           Station.Latitudine row = Num lat ∧
           GeoJSON.geometry_type (GeoJSON.geometry_of f) = "Point" ∧
           GeoJSON.coordinates (GeoJSON.geometry_of f) = [lon; lat])
      (station_frames h' r) (GeoJSON.features doc).
Proof.
  intros Hrun.
  destruct (process_ok _ _ _ _ _ Hrun) as (doc & Hdoc & _).
  exists doc. split; [done|].
  apply create_geojson_inv in Hdoc as (_ & Hty & Hfs).
  apply make_features_Forall2 in Hfs.
  split; [done|]. split; [symmetry; by eapply Forall2_length|].
  eapply Forall2_impl; [exact Hfs|].
  intros row f Hmk.
  apply make_feature_inv in Hmk as (lon & lat & sp & Hlon & Hlat & _ & ->).
  by exists lon, lat.
Qed.

Lemma features_match_stations_witness :
  ∃ doc,
    create_geojson 3 sample_merged = (Ok doc, sample_merged) ∧
    GeoJSON.document_type doc = "FeatureCollection" ∧
    length (GeoJSON.features doc) = length (station_frames sample_merged 3) ∧
    Forall2
      (λ row f,
         ∃ lon lat,
           Station.Longitudine row = Num lon ∧
           Station.Latitudine row = Num lat ∧
           GeoJSON.geometry_type (GeoJSON.geometry_of f) = "Point" ∧
           GeoJSON.coordinates (GeoJSON.geometry_of f) = [lon; lat])
      (station_frames sample_merged 3) (GeoJSON.features doc).
Proof.
  apply (features_match_stations sample_store sample_merged 0 0 3).
  vm_compute. reflexivity.
Defined.

Example sample_coordinates :
  map (λ f, GeoJSON.coordinates (GeoJSON.geometry_of f))
    (GeoJSON.features sample_document)
  = [ [Fin 12.5; Fin 41.9]; [Fin 7.6; Fin 45.0] ].
Proof. vm_compute. reflexivity. Qed.

(** C6. The features of the output come, one each and in the same order,
    from the station rows that the merge returns, and these from a
    subsequence of the input stations: the rows are filtered, never sorted,
    so the identifiers of the features are a subsequence of the identifiers
    of the input. *)
Theorem output_preserves_station_order (h h' : heap) (prices_df stations_df : nat)
    (doc : GeoJSON.document) :
  process prices_df stations_df h = (Ok doc, h') →
  ∃ r pg pd kept,
    clean_and_merge_data prices_df stations_df h = (Ok r, h') ∧
    kept `sublist_of` station_frames h stations_df ∧
    station_frames h' r = map (enrich pg pd) kept ∧
    Forall2 (λ row f, make_feature row = Ok f)
      (station_frames h' r) (GeoJSON.features doc) ∧
    map (λ f, GeoJSON.idImpianto (GeoJSON.properties_of f)) (GeoJSON.features doc)
      = map Station.idImpianto kept ∧
    map (λ f, GeoJSON.idImpianto (GeoJSON.properties_of f)) (GeoJSON.features doc)
      `sublist_of` map Station.idImpianto (station_frames h stations_df).
Proof.
  intros Hdoc.
  destruct (process_inv _ _ _ _ _ Hdoc)
    as (pg & pd & kept & Hrun & _ & _ & Hkept & Hout & _ & Hfs).
  assert (Hsub : kept `sublist_of` station_frames h stations_df).
  { rewrite Hkept. apply filter_sublist. }
  assert (Hids : map (λ f, GeoJSON.idImpianto (GeoJSON.properties_of f))
                   (GeoJSON.features doc) = map Station.idImpianto kept).
  { clear Hkept Hout Hsub. induction Hfs as [|st f kept' fs Hmk _ IH]; [done|].
    simpl. rewrite IH. f_equal.
    by apply make_feature_inv in Hmk as (? & ? & ? & _ & _ & _ & ->). }
  exists (S (S (next_frame h))), pg, pd, kept.
  split; [done|]. split; [done|]. split; [done|]. split; [|split; [done|]].
  - rewrite Hout. by apply Forall2_fmap_l.
  - rewrite Hids. by apply (fmap_sublist Station.idImpianto).
Qed.

Lemma output_preserves_station_order_witness :
  ∃ r pg pd kept,
    clean_and_merge_data 0 0 sample_store = (Ok r, sample_merged) ∧
    kept `sublist_of` station_frames sample_store 0 ∧
    station_frames sample_merged r = map (enrich pg pd) kept ∧
    Forall2 (λ row f, make_feature row = Ok f)
      (station_frames sample_merged r) (GeoJSON.features sample_document) ∧
    map (λ f, GeoJSON.idImpianto (GeoJSON.properties_of f))
      (GeoJSON.features sample_document) = map Station.idImpianto kept ∧
    map (λ f, GeoJSON.idImpianto (GeoJSON.properties_of f))
      (GeoJSON.features sample_document)
      `sublist_of` map Station.idImpianto (station_frames sample_store 0).
Proof.
  apply (output_preserves_station_order sample_store sample_merged 0 0).
  vm_compute. reflexivity.
Defined.

(** What the code does of the default to the empty string: every emitted
    feature comes from an input station with the same identifier, and each
    of the seven descriptive columns that the frame lacks, so that
    [station.get] falls back to its default, is the empty string in the
    properties of the feature. *)
Theorem absent_fields_are_empty_strings (h h' : heap) (prices_df stations_df : nat)
    (doc : GeoJSON.document) :
  process prices_df stations_df h = (Ok doc, h') →
  ∀ f, f ∈ GeoJSON.features doc →
    ∃ st, st ∈ station_frames h stations_df ∧
      GeoJSON.idImpianto (GeoJSON.properties_of f) = Station.idImpianto st ∧
      (Station.Gestore st = None → GeoJSON.Gestore (GeoJSON.properties_of f) = EmptyString) ∧
      (Station.Bandiera st = None → GeoJSON.Bandiera (GeoJSON.properties_of f) = EmptyString) ∧
      (Station.Tipo_Impianto st = None →
         GeoJSON.TipoImpianto (GeoJSON.properties_of f) = EmptyString) ∧
      (Station.Nome_Impianto st = None →
         GeoJSON.NomeImpianto (GeoJSON.properties_of f) = EmptyString) ∧
      (Station.Indirizzo st = None →
         GeoJSON.Indirizzo (GeoJSON.properties_of f) = EmptyString) ∧
      (Station.Comune st = None → GeoJSON.Comune (GeoJSON.properties_of f) = EmptyString) ∧
      (Station.Provincia st = None →
         GeoJSON.Provincia (GeoJSON.properties_of f) = EmptyString).
Proof.
  intros Hdoc f Hf.
  destruct (process_inv _ _ _ _ _ Hdoc)
    as (pg & pd & kept & _ & _ & _ & Hkept & _ & _ & Hfs).
  apply list_elem_of_lookup in Hf as [i Hi].
  destruct (Forall2_lookup_r _ _ _ _ _ Hfs Hi) as (st & Hst & Hmk).
  exists st. split.
  - apply list_elem_of_lookup_2 in Hst. rewrite Hkept in Hst.
    apply list_elem_of_In, filter_In in Hst as [Hin _]. by apply list_elem_of_In.
  - apply make_feature_inv in Hmk as (lon & lat & sp & _ & _ & _ & ->).
    simpl. repeat split; try done; by intros ->.
Qed.

Lemma absent_fields_are_empty_strings_witness :
  Forall (λ f,
    ∃ st, st ∈ station_frames sample_store 0 ∧
      GeoJSON.idImpianto (GeoJSON.properties_of f) = Station.idImpianto st ∧
      (Station.Gestore st = None → GeoJSON.Gestore (GeoJSON.properties_of f) = EmptyString) ∧
      (Station.Bandiera st = None → GeoJSON.Bandiera (GeoJSON.properties_of f) = EmptyString) ∧
      (Station.Tipo_Impianto st = None →
         GeoJSON.TipoImpianto (GeoJSON.properties_of f) = EmptyString) ∧
      (Station.Nome_Impianto st = None →
         GeoJSON.NomeImpianto (GeoJSON.properties_of f) = EmptyString) ∧
      (Station.Indirizzo st = None →
         GeoJSON.Indirizzo (GeoJSON.properties_of f) = EmptyString) ∧
      (Station.Comune st = None → GeoJSON.Comune (GeoJSON.properties_of f) = EmptyString) ∧
      (Station.Provincia st = None →
         GeoJSON.Provincia (GeoJSON.properties_of f) = EmptyString))
    (GeoJSON.features sample_document).
Proof.
  apply Forall_forall.
  apply (absent_fields_are_empty_strings sample_store sample_merged 0 0).
  vm_compute. reflexivity.
Defined.

(** The sample stations lack the [Bandiera] column and have an empty
    [Indirizzo] field, which pandas reads as NaN and [str] renders. *)
Example sample_descriptive_fields :
  map (λ f, (GeoJSON.Bandiera (GeoJSON.properties_of f),
             GeoJSON.Indirizzo (GeoJSON.properties_of f)))
    (GeoJSON.features sample_document)
  = [ (EmptyString, "nan"); (EmptyString, "nan") ].
Proof. vm_compute. reflexivity. Qed.

(** C9. The code breaks the claim for a descriptive field that a station
    record leaves empty.  pandas reads the empty field as NaN, the key is
    in the row, [station.get(name, '')] returns the NaN and not its
    default, and [str] turns it into the text [nan]: every sample station
    has an empty [Indirizzo], the pipeline completes, and both emitted
    features carry [nan] there, not the empty string. *)
Theorem empty_field_emitted_as_nan :
  Forall (λ st, Station.Indirizzo st = Some VNaN) (station_frames sample_store 0) ∧
  process 0 0 sample_store = (Ok sample_document, sample_merged) ∧
  map (λ f, (GeoJSON.idImpianto (GeoJSON.properties_of f),
             GeoJSON.Indirizzo (GeoJSON.properties_of f)))
    (GeoJSON.features sample_document)
  = [ (1, "nan"); (4, "nan") ] ∧
  Forall (λ f, GeoJSON.Indirizzo (GeoJSON.properties_of f) ≠ EmptyString)
    (GeoJSON.features sample_document).
Proof.
  split; [|split; [|split]].
  - repeat constructor.
  - vm_compute. reflexivity.
  - vm_compute. reflexivity.
  - apply Forall_forall. intros f Hf Hempty.
    apply list_elem_of_In in Hf.
    apply (in_map (λ f, GeoJSON.Indirizzo (GeoJSON.properties_of f))) in Hf.
    rewrite Hempty in Hf. vm_compute in Hf.
    destruct Hf as [Hf|[Hf|[]]]; discriminate.
Qed.

(** C10. In every station row that the merge returns, and in every feature
    emitted from it, the price dictionary and the date dictionary have the
    same keys: a category has a price exactly when it has a date. *)
Theorem prices_and_dates_have_same_keys (h h' : heap)
    (prices_df stations_df r : nat) :
  clean_and_merge_data prices_df stations_df h = (Ok r, h') →
  (∀ row, row ∈ station_frames h' r →
      ∃ g d,
        Station.prices row = Some (Some g) ∧
        Station.priceDates row = Some (Some d) ∧
        dom g = dom d ∧
        ∀ category, is_Some (g !! category) ↔ is_Some (d !! category)) ∧
  ∃ doc,
    process prices_df stations_df h = (Ok doc, h') ∧
    ∀ f, f ∈ GeoJSON.features doc →
      ∃ g d,
        GeoJSON.prices (GeoJSON.properties_of f) = Some g ∧
        GeoJSON.priceDates (GeoJSON.properties_of f) = Some d ∧
        dom g = dom d ∧
        ∀ category, is_Some (g !! category) ↔ is_Some (d !! category).
Proof.
  intros Hrun.
  destruct (process_ok _ _ _ _ _ Hrun) as (doc & _ & Hdoc).
  destruct (process_inv _ _ _ _ _ Hdoc)
    as (pg & pd & kept & Hrun' & _ & Hinv & Hkept & Hout & _ & Hfs).
  assert (r = S (S (next_frame h))) as -> by congruence.
  assert (Hkeys : ∀ st, st ∈ kept →
            ∃ g d,
              pg !! Station.idImpianto st = Some g ∧
              pd !! Station.idImpianto st = Some d ∧
              dom g = dom d ∧
              ∀ category, is_Some (g !! category) ↔ is_Some (d !! category)).
  { intros st. rewrite Hkept, list_elem_of_In, filter_In, andb_true_iff.
    intros (_ & Hhas & _). unfold has_prices in Hhas.
    apply bool_decide_eq_true in Hhas as [g Hg].
    pose proof (Hinv (Station.idImpianto st)) as H1. simpl in H1.
    rewrite Hg in H1. destruct (pd !! Station.idImpianto st) as [d|]; [|done].
    destruct H1 as [Hdom _]. exists g, d. repeat split; try done.
    - intros Hc. apply elem_of_dom. rewrite <- Hdom. by apply elem_of_dom.
    - intros Hc. apply elem_of_dom. rewrite Hdom. by apply elem_of_dom. }
  split.
  - intros row. rewrite Hout, list_elem_of_In, in_map_iff.
    intros (st & <- & Hin). apply list_elem_of_In in Hin.
    destruct (Hkeys st Hin) as (g & d & Hg & Hd & Hdom & Hiff).
    exists g, d. simpl. by rewrite Hg, Hd.
  - exists doc. split; [done|]. intros f Hf.
    apply list_elem_of_lookup in Hf as [i Hi].
    destruct (Forall2_lookup_r _ _ _ _ _ Hfs Hi) as (st & Hst & Hmk).
    apply list_elem_of_lookup_2 in Hst.
    destruct (Hkeys st Hst) as (g & d & Hg & Hd & Hdom & Hiff).
    apply make_feature_inv in Hmk as (lon & lat & sp & _ & _ & Hsp & ->).
    simpl in *. exists g, d. rewrite Hd. simpl.
    repeat split; try done; try apply Hiff. congruence.
Qed.

Lemma prices_and_dates_have_same_keys_witness :
  (∀ row, row ∈ station_frames sample_merged 3 →
      ∃ g d,
        Station.prices row = Some (Some g) ∧
        Station.priceDates row = Some (Some d) ∧
        dom g = dom d ∧
        ∀ category, is_Some (g !! category) ↔ is_Some (d !! category)) ∧
  ∃ doc,
    process 0 0 sample_store = (Ok doc, sample_merged) ∧
    ∀ f, f ∈ GeoJSON.features doc →
      ∃ g d,
        GeoJSON.prices (GeoJSON.properties_of f) = Some g ∧
        GeoJSON.priceDates (GeoJSON.properties_of f) = Some d ∧
        dom g = dom d ∧
        ∀ category, is_Some (g !! category) ↔ is_Some (d !! category).
Proof.
  apply (prices_and_dates_have_same_keys sample_store sample_merged 0 0 3).
  vm_compute. reflexivity.
Defined.

(** ** Where the code departs from the specification *)

(** C7, as the specification states it, fails: with one price that is not a
    number among the sample prices the merge returns nothing and exits with
    status 1, while without that row it returns a frame. *)
Lemma malformed_price_aborts_sample_run :
  Exists malformed (price_frames dirty_store 0) ∧
  (clean_and_merge_data 0 0 dirty_store).1 = Raise (SystemExit 1) ∧
  (clean_and_merge_data 0 0 sample_store).1 = Ok 3%nat.
Proof.
  split; [|split].
  - unfold dirty_store, dirty_prices, sample_prices. simpl.
    do 5 apply Exists_cons_tl. by apply Exists_cons_hd.
  - vm_compute. reflexivity.
  - vm_compute. reflexivity.
Qed.

(** C7, amended. A price that is not a number makes [float] raise in the
    loop over the price rows; the handler of [clean_and_merge_data] exits
    with status 1: no frame is returned, no frame is changed, and the
    pipeline emits no document. *)
Theorem malformed_price_exits (h : heap) (prices_df stations_df : nat) :
  Exists malformed (price_frames h prices_df) →
  clean_and_merge_data prices_df stations_df h = (Raise (SystemExit 1), h) ∧
  process prices_df stations_df h = (Raise (SystemExit 1), h).
Proof.
  intros Hbad.
  assert (Hrun : clean_and_merge_data prices_df stations_df h
                 = (Raise (SystemExit 1), h)).
  { apply clean_and_merge_data_raise.
    apply iterrows_loop_malformed; [apply groups_inv_empty | done]. }
  split; [done|]. unfold process. unfold mbind, py_bind. by rewrite Hrun.
Qed.

Lemma malformed_price_exits_witness :
  clean_and_merge_data 0 0 dirty_store = (Raise (SystemExit 1), dirty_store) ∧
  process 0 0 dirty_store = (Raise (SystemExit 1), dirty_store).
Proof.
  apply (malformed_price_exits dirty_store 0 0).
  unfold dirty_store, dirty_prices, sample_prices. simpl.
  do 5 apply Exists_cons_tl. apply Exists_cons_hd. reflexivity.
Defined.

(** The merge completes exactly when no price is malformed. *)
Lemma clean_and_merge_data_completes (h : heap) (prices_df stations_df : nat) :
  Forall (λ row, ¬ malformed row) (price_frames h prices_df) →
  ∃ r h', clean_and_merge_data prices_df stations_df h = (Ok r, h').
Proof.
  intros Hall.
  destruct (iterrows_loop_numbers _ (∅, ∅) groups_inv_empty Hall) as [[pg pd] Hloop].
  destruct (clean_and_merge_data_ok h prices_df stations_df pg pd Hloop)
    as (h' & Hrun & _).
  by eexists _, _.
Qed.

(** C8, as the specification states it, fails: after the merge of the
    sample data every station row of the caller's frame has gained the
    [prices] column. *)
Lemma merge_mutates_sample_stations :
  (clean_and_merge_data 0 0 sample_store).1 = Ok 3%nat ∧
  map Station.prices (station_frames sample_store 0) = [None; None; None; None] ∧
  map (λ row, bool_decide (is_Some (Station.prices row)))
    (station_frames sample_merged 0) = [true; true; true; true] ∧
  station_frames sample_merged 0 ≠ station_frames sample_store 0.
Proof.
  split; [vm_compute; reflexivity|]. split; [reflexivity|].
  split; [vm_compute; reflexivity|].
  intros Heq.
  apply (f_equal (map (λ row, bool_decide (is_Some (Station.prices row))))) in Heq.
  vm_compute in Heq. discriminate.
Qed.

Lemma assign_same_columns pg pd (rows : list Station.row) :
  Forall2 same_station_columns rows (assign_priceDates pd (assign_prices pg rows)).
Proof.
  unfold assign_priceDates, assign_prices. rewrite map_map.
  apply Forall2_fmap_r, Forall_Forall2_diag, Forall_forall.
  intros row _. by repeat split.
Qed.

(** C8, amended. The merge changes no price frame, no station frame other
    than the one it is given, and no value of the columns that the rows of
    that frame had; when it completes it has added to every row of that
    frame the columns [prices] and [priceDates], and the frame it returns is
    a new object; when it exits it has changed nothing. *)
Theorem merge_adds_columns_to_input (h h' : heap) (prices_df stations_df : nat)
    (o : outcome nat) :
  (stations_df < next_frame h)%nat →
  clean_and_merge_data prices_df stations_df h = (o, h') →
  price_frames h' = price_frames h ∧
  (∀ i, (i < next_frame h)%nat → i ≠ stations_df →
        station_frames h' i = station_frames h i) ∧
  Forall2 same_station_columns
    (station_frames h stations_df) (station_frames h' stations_df) ∧
  (∀ r, o = Ok r →
        (next_frame h ≤ r)%nat ∧
        ∃ pg pd,
          iterrows_loop (price_frames h prices_df) (∅, ∅) = Ok (pg, pd) ∧
          station_frames h' stations_df =
            assign_priceDates pd (assign_prices pg (station_frames h stations_df)) ∧
          Forall (λ row, is_Some (Station.prices row) ∧
                         is_Some (Station.priceDates row))
            (station_frames h' stations_df)) ∧
  (∀ e, o = Raise e → e = SystemExit 1 ∧ h' = h).
Proof.
  intros Hlive Hrun.
  destruct (iterrows_loop_outcome (price_frames h prices_df))
    as [([pg pd] & Hloop & _ & _)|[Hloop _]].
  - destruct (clean_and_merge_data_ok h prices_df stations_df pg pd Hloop)
      as (h1 & Hrun1 & Hp & _ & _ & Hin & Hrest).
    rewrite Hrun1 in Hrun. injection Hrun as <- <-.
    specialize (Hin Hlive).
    split; [done|]. split; [done|]. split; [|split].
    + rewrite Hin. apply assign_same_columns.
    + intros r [= <-]. split; [lia|]. exists pg, pd.
      split; [done|]. split; [done|]. rewrite Hin.
      unfold assign_priceDates, assign_prices. rewrite map_map.
      apply Forall_map, Forall_forall. intros row _. simpl. by split.
    + intros e. discriminate.
  - rewrite (clean_and_merge_data_raise h prices_df stations_df Hloop) in Hrun.
    injection Hrun as <- <-.
    split; [done|]. split; [done|]. split; [|split].
    + apply Forall_Forall2_diag, Forall_forall. intros row _. by repeat split.
    + intros r. discriminate.
    + intros e [= <-]. done.
Qed.

Lemma merge_adds_columns_to_input_witness :
  price_frames sample_merged = price_frames sample_store ∧
  (∀ i, (i < next_frame sample_store)%nat → i ≠ 0%nat →
        station_frames sample_merged i = station_frames sample_store i) ∧
  Forall2 same_station_columns
    (station_frames sample_store 0) (station_frames sample_merged 0) ∧
  (∀ r, Ok 3%nat = Ok r →
        (next_frame sample_store ≤ r)%nat ∧
        ∃ pg pd,
          iterrows_loop (price_frames sample_store 0) (∅, ∅) = Ok (pg, pd) ∧
          station_frames sample_merged 0 =
            assign_priceDates pd
              (assign_prices pg (station_frames sample_store 0)) ∧
          Forall (λ row, is_Some (Station.prices row) ∧
                         is_Some (Station.priceDates row))
            (station_frames sample_merged 0)) ∧
  (∀ e, Ok 3%nat = Raise e → e = SystemExit 1 ∧ sample_merged = sample_store).
Proof.
  apply (merge_adds_columns_to_input sample_store sample_merged 0 0 (Ok 3%nat)).
  - simpl. lia.
  - vm_compute. reflexivity.
Defined.

(** * Further properties of the code *)

(** ** The category lookup *)

Lemma first_category_some (table : list (string * list string))
    (fuel_name category : string) :
  first_category table fuel_name = Some category →
  ∃ fuels, (category, fuels) ∈ table ∧ fuel_name ∈ fuels.
Proof.
  induction table as [|[c fuels] rest IH]; [done|]. simpl.
  destruct (contains fuels fuel_name) eqn:E.
  - intros [= <-]. exists fuels. split; [apply list_elem_of_here|].
    by apply contains_elem_of.
  - intros H. destruct (IH H) as (fs & Hin & Hfuel).
    exists fs. split; [by apply list_elem_of_further | done].
Qed.

Lemma canonical_categories_fixed :
  Forall (λ category, get_main_fuel_category category = category)
    canonical_categories.
Proof. unfold canonical_categories. repeat constructor. Qed.

Lemma canonical_categories_listed :
  Forall (λ category, first_category FUEL_CATEGORIES category = Some category)
    canonical_categories.
Proof. unfold canonical_categories. repeat constructor. Qed.

(** X1. Normalising a fuel name twice gives what normalising it once gives:
    every category of the table lists its own name, and a name that the
    table does not know is left alone. *)
Theorem get_main_fuel_category_idempotent (fuel_name : string) :
  get_main_fuel_category (get_main_fuel_category fuel_name)
  = get_main_fuel_category fuel_name.
Proof.
  destruct (first_category FUEL_CATEGORIES fuel_name) as [category|] eqn:E.
  - assert (Hget : get_main_fuel_category fuel_name = category).
    { unfold get_main_fuel_category. by rewrite E. }
    rewrite Hget.
    apply first_category_some in E as (fuels & Hentry & _).
    pose proof table_categories as HT. rewrite Forall_forall in HT.
    destruct (HT _ Hentry) as [Hcanonical _]. simpl in Hcanonical.
    pose proof canonical_categories_fixed as HF. rewrite Forall_forall in HF.
    by apply HF.
  - assert (Hget : get_main_fuel_category fuel_name = fuel_name).
    { unfold get_main_fuel_category. by rewrite E. }
    by rewrite !Hget.
Qed.

(** X2. The result is one of the six canonical categories exactly when some
    entry of the table lists the name; otherwise it is the name itself. *)
Theorem canonical_result_iff_listed (fuel_name : string) :
  (get_main_fuel_category fuel_name ∈ canonical_categories ↔
   ∃ category fuels, (category, fuels) ∈ FUEL_CATEGORIES ∧ fuel_name ∈ fuels) ∧
  (get_main_fuel_category fuel_name ∉ canonical_categories →
   get_main_fuel_category fuel_name = fuel_name).
Proof.
  split; [split|].
  - unfold get_main_fuel_category.
    destruct (first_category FUEL_CATEGORIES fuel_name) as [category|] eqn:E.
    + intros _. apply first_category_some in E as (fuels & Hentry & Hfuel).
      by exists category, fuels.
    + intros Hcanonical.
      pose proof canonical_categories_listed as HL. rewrite Forall_forall in HL.
      rewrite (HL _ Hcanonical) in E. discriminate.
  - intros (category & fuels & Hentry & Hfuel).
    pose proof table_categories as HT. rewrite Forall_forall in HT.
    destruct (HT _ Hentry) as [Hcanonical Hall]. simpl in *.
    rewrite Forall_forall in Hall. by rewrite (Hall _ Hfuel).
  - unfold get_main_fuel_category.
    destruct (first_category FUEL_CATEGORIES fuel_name) as [category|] eqn:E; [|done].
    intros Hnot. exfalso. apply Hnot.
    apply first_category_some in E as (fuels & Hentry & _).
    pose proof table_categories as HT. rewrite Forall_forall in HT.
    by destruct (HT _ Hentry) as [Hcanonical _].
Qed.

Lemma canonical_result_iff_listed_witness :
  (get_main_fuel_category "HVO100" ∈ canonical_categories ↔
   ∃ category fuels, (category, fuels) ∈ FUEL_CATEGORIES ∧ "HVO100" ∈ fuels) ∧
  (get_main_fuel_category "Kerosene" ∉ canonical_categories →
   get_main_fuel_category "Kerosene" = "Kerosene").
Proof.
  split.
  - apply (proj1 (canonical_result_iff_listed "HVO100")).
  - apply (proj2 (canonical_result_iff_listed "Kerosene")).
Defined.

(** ** The loop over the price rows, whatever the prices *)

(** A stored price is the price of one of the rows for its station and
    category, and an entry, once made, is never removed. *)
Lemma iterrows_loop_entries (rows : list Price.row)
    (st st' : gmap Z (gmap string pyfloat) * gmap Z (gmap string pyval))
    (station_id : Z) (category : string) :
  groups_inv st → iterrows_loop rows st = Ok st' →
  (∀ p, entry st'.1 station_id category = Some p →
        entry st.1 station_id category = Some p ∨
        ∃ row, row ∈ rows ∧ row_matches station_id category row = true ∧
               Price.prezzo row = Num p) ∧
  (is_Some (entry st.1 station_id category) ∨
   (∃ row, row ∈ rows ∧ row_matches station_id category row = true) →
   is_Some (entry st'.1 station_id category)).
Proof.
  revert st. induction rows as [|row rest IH]; intros st Hinv Hrun; simpl in Hrun.
  - injection Hrun as <-. split; [by left|].
    intros [?|(row & Hin & _)]; [done | by apply elem_of_nil in Hin].
  - destruct (Price.prezzo row) as [q|] eqn:Hq;
      [|by rewrite (price_step_malformed st row Hinv Hq) in Hrun].
    destruct (price_step_number st row q Hinv Hq)
      as (st1 & Hstep & Hinv1 & Hother & Hsame).
    rewrite Hstep in Hrun. simpl in Hrun.
    destruct (IH st1 Hinv1 Hrun) as [IHfrom IHkeep].
    assert (Hstep_from : ∀ p, entry st1.1 station_id category = Some p →
              entry st.1 station_id category = Some p ∨
              (row_matches station_id category row = true ∧ q = p)).
    { intros p Hp. destruct (row_matches station_id category row) eqn:Hm.
      - specialize (Hsame _ _ Hm).
        destruct (entry st.1 station_id category) as [stored|].
        + destruct (flt q stored); destruct Hsame as [Hg _];
            rewrite Hg in Hp; injection Hp as <-; [by right | by left].
        + destruct Hsame as [Hg _]. rewrite Hg in Hp. injection Hp as <-.
          by right.
      - destruct (Hother _ _ Hm) as [Hg _]. left. congruence. }
    assert (Hstep_keep : is_Some (entry st.1 station_id category) ∨
                         row_matches station_id category row = true →
                         is_Some (entry st1.1 station_id category)).
    { destruct (row_matches station_id category row) eqn:Hm.
      - intros _. specialize (Hsame _ _ Hm).
        destruct (entry st.1 station_id category) as [stored|].
        + destruct (flt q stored); destruct Hsame as [Hg _]; by rewrite Hg.
        + destruct Hsame as [Hg _]. by rewrite Hg.
      - destruct (Hother _ _ Hm) as [Hg _]. rewrite Hg. by intros [?|?]. }
    split.
    + intros p Hp. destruct (IHfrom p Hp) as [H1|(r & Hin & Hm & Hr)].
      * destruct (Hstep_from p H1) as [?|[Hm <-]]; [by left|].
        right. exists row. split; [apply list_elem_of_here | done].
      * right. exists r. split; [by apply list_elem_of_further | done].
    + intros [Hsome|(r & Hin & Hm)].
      * apply IHkeep. left. apply Hstep_keep. by left.
      * apply elem_of_cons in Hin as [->|Hin].
        -- apply IHkeep. left. apply Hstep_keep. by right.
        -- apply IHkeep. right. by exists r.
Qed.

Lemma row_matches_true (station_id : Z) (category : string) (row : Price.row) :
  row_matches station_id category row = true ↔
  Price.idImpianto row = station_id ∧
  get_main_fuel_category (Price.descCarburante row) = category.
Proof.
  unfold row_matches. by rewrite andb_true_iff, Z.eqb_eq, String.eqb_eq.
Qed.

Lemma entry_empty {V : Type} (station_id : Z) (category : string) :
  entry (V := V) ∅ station_id category = None.
Proof. unfold entry. by rewrite lookup_empty. Qed.

(** X3. The price dictionary of every station row that the merge returns
    has exactly the categories of the price rows of that station, whatever
    the prices are (NaN included), and the price stored for a category is the
    price of one of those rows. *)
Theorem price_keys_are_observed_categories (h h' : heap)
    (prices_df stations_df r : nat) :
  clean_and_merge_data prices_df stations_df h = (Ok r, h') →
  ∀ row, row ∈ station_frames h' r →
    ∃ g,
      Station.prices row = Some (Some g) ∧
      (∀ category,
          is_Some (g !! category) ↔
          ∃ price_row, price_row ∈ price_frames h prices_df ∧
            Price.idImpianto price_row = Station.idImpianto row ∧
            get_main_fuel_category (Price.descCarburante price_row) = category) ∧
      (∀ category p,
          g !! category = Some p →
          ∃ price_row, price_row ∈ price_frames h prices_df ∧
            Price.idImpianto price_row = Station.idImpianto row ∧
            get_main_fuel_category (Price.descCarburante price_row) = category ∧
            Price.prezzo price_row = Num p).
Proof.
  intros Hrun row Hrow.
  destruct (clean_and_merge_data_inv _ _ _ _ _ Hrun)
    as (pg & pd & Hloop & Hinv & _ & _ & _ & Hout & _).
  rewrite Hout in Hrow. apply list_elem_of_In, in_map_iff in Hrow as (st & <- & Hin).
  apply filter_In in Hin as [_ Hkeep]. apply andb_true_iff in Hkeep as [Hhas _].
  unfold has_prices in Hhas. apply bool_decide_eq_true in Hhas as [g Hg].
  exists g. simpl. split; [by rewrite Hg|].
  assert (Hentry : ∀ category, entry pg (Station.idImpianto st) category = g !! category).
  { intros category. unfold entry. by rewrite Hg. }
  split.
  - intros category. rewrite <- Hentry.
    destruct (iterrows_loop_entries _ _ _ (Station.idImpianto st) category
                groups_inv_empty Hloop) as [Hfrom Hkeep]. simpl in *.
    split.
    + intros [p Hp]. destruct (Hfrom p Hp) as [Hempty|(prow & Hin & Hm & _)].
      * by rewrite entry_empty in Hempty.
      * exists prow. split; [done|]. by apply row_matches_true.
    + intros (prow & Hin & Hid & Hcat). apply Hkeep. right.
      exists prow. split; [done|]. by apply row_matches_true.
  - intros category p Hp. rewrite <- Hentry in Hp.
    destruct (iterrows_loop_entries _ _ _ (Station.idImpianto st) category
                groups_inv_empty Hloop) as [Hfrom _]. simpl in *.
    destruct (Hfrom p Hp) as [Hempty|(prow & Hin & Hm & Hprice)].
    + by rewrite entry_empty in Hempty.
    + exists prow. apply row_matches_true in Hm as [? ?]. by repeat split.
Qed.

Lemma price_keys_are_observed_categories_witness :
  Forall (λ row,
    ∃ g,
      Station.prices row = Some (Some g) ∧
      (∀ category,
          is_Some (g !! category) ↔
          ∃ price_row, price_row ∈ price_frames sample_store 0 ∧
            Price.idImpianto price_row = Station.idImpianto row ∧
            get_main_fuel_category (Price.descCarburante price_row) = category) ∧
      (∀ category p,
          g !! category = Some p →
          ∃ price_row, price_row ∈ price_frames sample_store 0 ∧
            Price.idImpianto price_row = Station.idImpianto row ∧
            get_main_fuel_category (Price.descCarburante price_row) = category ∧
            Price.prezzo price_row = Num p))
    (station_frames sample_merged 3).
Proof.
  apply Forall_forall.
  apply (price_keys_are_observed_categories sample_store sample_merged 0 0 3).
  vm_compute. reflexivity.
Defined.

(** The entry of [cheapest_entry] is the price of one of the rows and no row
    undercuts it. *)
Lemma cheapest_entry_min (rows : list Price.row)
    (st : gmap Z (gmap string pyfloat) * gmap Z (gmap string pyval))
    (station_id : Z) (category : string) (p : pyfloat) :
  cheapest_entry rows st station_id category →
  entry st.1 station_id category = Some p →
  (∃ row, row ∈ List.filter (row_matches station_id category) rows ∧
          Price.prezzo row = Num p) ∧
  ∀ row, row ∈ List.filter (row_matches station_id category) rows →
         ∃ x, Price.prezzo row = Num x ∧ flt x p = false.
Proof.
  intros [(_ & Hnone & _)|
    (before & best & after & q & Hmine & Hq & Hg & _ & Hbefore & Hafter)] Hp;
    simpl in *; [congruence|].
  assert (q = p) as -> by congruence. rewrite Hmine. split.
  - exists best. split; [|done]. apply elem_of_app. right. apply list_elem_of_here.
  - intros row [Hin|Hin]%elem_of_app.
    + rewrite Forall_forall in Hbefore.
      destruct (Hbefore _ Hin) as (x & Hx & Hlt).
      exists x. split; [done | by apply flt_asym].
    + apply elem_of_cons in Hin as [->|Hin].
      * exists p. split; [done | apply flt_irrefl].
      * rewrite Forall_forall in Hafter.
        destruct (Hafter _ Hin) as (x & Hx & _ & Hge). by exists x.
Qed.

Lemma cheapest_entry_none (rows : list Price.row)
    (st : gmap Z (gmap string pyfloat) * gmap Z (gmap string pyval))
    (station_id : Z) (category : string) :
  cheapest_entry rows st station_id category →
  entry st.1 station_id category = None →
  List.filter (row_matches station_id category) rows = [].
Proof.
  intros [(Hnil & _)|(before & best & after & q & _ & _ & Hg & _)] Hnone;
    simpl in *; [done | congruence].
Qed.

(** X4. The cheapest price does not depend on the order of the price rows,
    nor on rows that are repeated: two price frames with the same rows,
    all with numeric prices, give every station and category entries of
    which none is lower than the other, or no entry in both. *)
Theorem cheapest_price_order_independent (rows rows' : list Price.row) :
  Forall priced rows → (∀ row, row ∈ rows ↔ row ∈ rows') →
  ∃ st st',
    iterrows_loop rows (∅, ∅) = Ok st ∧
    iterrows_loop rows' (∅, ∅) = Ok st' ∧
    ∀ station_id category,
      match entry st.1 station_id category, entry st'.1 station_id category with
      | Some p, Some p' => same_price p p'
      | None, None => True
      | _, _ => False
      end.
Proof.
  intros Hall Hsame.
  assert (Hall' : Forall priced rows').
  { rewrite Forall_forall in Hall. apply Forall_forall.
    intros row Hin. by apply Hall, Hsame. }
  destruct (iterrows_loop_cheapest rows Hall) as (st & Hrun & _ & Hbest).
  destruct (iterrows_loop_cheapest rows' Hall') as (st' & Hrun' & _ & Hbest').
  exists st, st'. split; [done|]. split; [done|]. intros a c.
  assert (Hmine : ∀ row, row ∈ List.filter (row_matches a c) rows ↔
                         row ∈ List.filter (row_matches a c) rows').
  { intros row. rewrite !list_elem_of_In, !filter_In, <- !list_elem_of_In.
    by rewrite Hsame. }
  destruct (entry st.1 a c) as [p|] eqn:Hp, (entry st'.1 a c) as [p'|] eqn:Hp'.
  - destruct (cheapest_entry_min _ _ _ _ _ (Hbest a c) Hp) as [(r & Hr & Hrp) Hmin].
    destruct (cheapest_entry_min _ _ _ _ _ (Hbest' a c) Hp') as [(r' & Hr' & Hrp') Hmin'].
    split.
    + destruct (Hmin' r (proj1 (Hmine r) Hr)) as (x & Hx & Hge).
      assert (x = p) as -> by congruence. done.
    + destruct (Hmin r' (proj2 (Hmine r') Hr')) as (x & Hx & Hge).
      assert (x = p') as -> by congruence. done.
  - destruct (cheapest_entry_min _ _ _ _ _ (Hbest a c) Hp) as [(r & Hr & _) _].
    apply Hmine in Hr.
    rewrite (cheapest_entry_none _ _ _ _ (Hbest' a c) Hp') in Hr.
    by apply elem_of_nil in Hr.
  - destruct (cheapest_entry_min _ _ _ _ _ (Hbest' a c) Hp') as [(r & Hr & _) _].
    apply Hmine in Hr.
    rewrite (cheapest_entry_none _ _ _ _ (Hbest a c) Hp) in Hr.
    by apply elem_of_nil in Hr.
  - done.
Qed.

Lemma cheapest_price_order_independent_witness :
  ∃ st st',
    iterrows_loop sample_prices (∅, ∅) = Ok st ∧
    iterrows_loop (rev sample_prices) (∅, ∅) = Ok st' ∧
    ∀ station_id category,
      match entry st.1 station_id category, entry st'.1 station_id category with
      | Some p, Some p' => same_price p p'
      | None, None => True
      | _, _ => False
      end.
Proof.
  apply (cheapest_price_order_independent sample_prices (rev sample_prices)).
  - repeat constructor; by eexists.
  - intros row. rewrite !list_elem_of_In. apply in_rev.
Defined.

Lemma flt_nan_r (p : pyfloat) : flt p NaN = false.
Proof. by destruct p. Qed.

(** A stored NaN outlives every later row. *)
Lemma iterrows_loop_nan_stays (rows : list Price.row)
    (st : gmap Z (gmap string pyfloat) * gmap Z (gmap string pyval))
    (station_id : Z) (category : string) :
  groups_inv st → Forall (λ row, ¬ malformed row) rows →
  entry st.1 station_id category = Some NaN →
  ∃ st', iterrows_loop rows st = Ok st' ∧
         entry st'.1 station_id category = Some NaN ∧
         entry st'.2 station_id category = entry st.2 station_id category.
Proof.
  revert st. induction rows as [|row rest IH]; intros st Hinv Hall Hnan.
  - by exists st.
  - apply Forall_cons in Hall as [Hrow Hall]. simpl.
    destruct (Price.prezzo row) as [q|] eqn:Hq; [|done].
    destruct (price_step_number st row q Hinv Hq)
      as (st1 & Hstep & Hinv1 & Hother & Hsame).
    rewrite Hstep. simpl.
    assert (H1 : entry st1.1 station_id category = Some NaN ∧
                 entry st1.2 station_id category = entry st.2 station_id category).
    { destruct (row_matches station_id category row) eqn:Hm.
      - specialize (Hsame _ _ Hm). rewrite Hnan, flt_nan_r in Hsame. done.
      - destruct (Hother _ _ Hm) as [Hg Hd]. by rewrite Hg, Hd. }
    destruct H1 as [Hg1 Hd1].
    destruct (IH st1 Hinv1 Hall Hg1) as (st' & Hrun & Hg & Hd).
    exists st'. split; [done|]. split; [done | congruence].
Qed.

Lemma iterrows_loop_first_nan (rows : list Price.row)
    (st : gmap Z (gmap string pyfloat) * gmap Z (gmap string pyval))
    (station_id : Z) (category : string) (first : Price.row)
    (rest : list Price.row) :
  groups_inv st → Forall (λ row, ¬ malformed row) rows →
  entry st.1 station_id category = None →
  List.filter (row_matches station_id category) rows = first :: rest →
  Price.prezzo first = Num NaN →
  ∃ st', iterrows_loop rows st = Ok st' ∧
         entry st'.1 station_id category = Some NaN ∧
         entry st'.2 station_id category = Some (date_of first).
Proof.
  revert st. induction rows as [|row rows IH]; intros st Hinv Hall Hnone Hmine Hnan;
    [done|].
  apply Forall_cons in Hall as [Hrow Hall]. simpl in *.
  destruct (Price.prezzo row) as [q|] eqn:Hq; [|done].
  destruct (price_step_number st row q Hinv Hq)
    as (st1 & Hstep & Hinv1 & Hother & Hsame).
  rewrite Hstep. simpl.
  destruct (row_matches station_id category row) eqn:Hm.
  - injection Hmine as -> _. specialize (Hsame _ _ Hm). rewrite Hnone in Hsame.
    destruct Hsame as [Hg Hd]. assert (q = NaN) as -> by congruence.
    destruct (iterrows_loop_nan_stays rows st1 station_id category Hinv1 Hall Hg)
      as (st' & Hrun & Hg' & Hd').
    exists st'. split; [done|]. split; [done | congruence].
  - destruct (Hother _ _ Hm) as [Hg Hd]. apply (IH st1); try done. congruence.
Qed.

(** X5. When the first price row of a station and category has an empty
    price (NaN), the entry stays NaN with the date of that row, whatever
    prices the later rows carry: no comparison with NaN is true. *)
Theorem first_nan_price_hides_later_prices (rows : list Price.row)
    (station_id : Z) (category : string) (first : Price.row)
    (rest : list Price.row) :
  Forall (λ row, ¬ malformed row) rows →
  List.filter (row_matches station_id category) rows = first :: rest →
  Price.prezzo first = Num NaN →
  ∃ st, iterrows_loop rows (∅, ∅) = Ok st ∧
        entry st.1 station_id category = Some NaN ∧
        entry st.2 station_id category = Some (date_of first).
Proof.
  intros Hall Hmine Hnan.
  apply (iterrows_loop_first_nan rows (∅, ∅) station_id category first rest);
    try done; first [apply groups_inv_empty | apply entry_empty].
Qed.

Lemma first_nan_price_hides_later_prices_witness :
  ∃ st, iterrows_loop
          [ price_row 1 "Benzina" (Num NaN) "01/03/2024 08:00:00";
            price_row 2 "Benzina" (Num (Fin 1.800)) "01/03/2024 08:00:00";
            price_row 1 "V-Power" (Num (Fin 1.750)) "02/03/2024 08:00:00" ]
          (∅, ∅) = Ok st ∧
        entry st.1 1 "Benzina" = Some NaN ∧
        entry st.2 1 "Benzina"
        = Some (date_of (price_row 1 "Benzina" (Num NaN) "01/03/2024 08:00:00")).
Proof.
  apply (first_nan_price_hides_later_prices _ 1 "Benzina" _
           [ price_row 1 "V-Power" (Num (Fin 1.750)) "02/03/2024 08:00:00" ]).
  - repeat constructor; discriminate.
  - reflexivity.
  - reflexivity.
Defined.

(** ** The merge as a whole *)

Lemma has_prices_has_price_row (rows : list Price.row)
    (pg : gmap Z (gmap string pyfloat)) (pd : gmap Z (gmap string pyval))
    (st : Station.row) :
  iterrows_loop rows (∅, ∅) = Ok (pg, pd) →
  has_prices pg st = has_price_row rows st.
Proof.
  intros Hloop. apply eq_true_iff_eq. unfold has_prices, has_price_row.
  rewrite bool_decide_eq_true, existsb_exists. split.
  - intros Hsome.
    destruct (iterrows_loop_stations rows (∅, ∅) (pg, pd) (Station.idImpianto st)
                groups_inv_empty Hloop Hsome) as [[g Hg]|(row & Hin & Hid)].
    + simpl in Hg. by rewrite lookup_empty in Hg.
    + exists row. split; [by apply list_elem_of_In | by apply Z.eqb_eq].
  - intros (row & Hin & Hid). apply Z.eqb_eq in Hid. apply list_elem_of_In in Hin.
    destruct (iterrows_loop_entries rows (∅, ∅) (pg, pd) (Price.idImpianto row)
                (get_main_fuel_category (Price.descCarburante row))
                groups_inv_empty Hloop) as [_ Hkeep].
    destruct Hkeep as [p Hp].
    { right. exists row. split; [done|]. by apply row_matches_true. }
    simpl in Hp. unfold entry in Hp. rewrite Hid in Hp.
    destruct (pg !! Station.idImpianto st); [by eexists | done].
Qed.

Lemma same_columns_enrich pg pd (st : Station.row) :
  coordinates_valid st → same_station_columns st (enrich pg pd st).
Proof.
  intros (lat & lon & Hlat & Hlon & _). unfold enrich. repeat split; simpl.
  - by rewrite Hlat.
  - by rewrite Hlon.
Qed.

(** X6. The merge returns exactly the stations that have a price row with
    their identifier and good coordinates, each once per input row and in
    the input order; such a station comes back with all its CSV columns
    unchanged and its price dictionary attached. *)
Theorem merge_keeps_priced_valid_stations (h h' : heap)
    (prices_df stations_df r : nat) :
  clean_and_merge_data prices_df stations_df h = (Ok r, h') →
  ∃ pg pd,
    iterrows_loop (price_frames h prices_df) (∅, ∅) = Ok (pg, pd) ∧
    station_frames h' r =
      map (enrich pg pd)
        (List.filter
           (λ st, has_price_row (price_frames h prices_df) st && coordinates_ok st)
           (station_frames h stations_df)) ∧
    ∀ st, st ∈ station_frames h stations_df →
      (∃ price_row, price_row ∈ price_frames h prices_df ∧
                    Price.idImpianto price_row = Station.idImpianto st) →
      coordinates_valid st →
      ∃ row, row ∈ station_frames h' r ∧
             same_station_columns st row ∧
             Station.prices row = Some (pg !! Station.idImpianto st) ∧
             Station.priceDates row = Some (pd !! Station.idImpianto st).
Proof.
  intros Hrun.
  destruct (clean_and_merge_data_inv _ _ _ _ _ Hrun)
    as (pg & pd & Hloop & _ & _ & _ & _ & Hout & _).
  assert (Hfilter :
    List.filter (λ st, has_prices pg st && coordinates_ok st)
      (station_frames h stations_df)
    = List.filter
        (λ st, has_price_row (price_frames h prices_df) st && coordinates_ok st)
        (station_frames h stations_df)).
  { apply List.filter_ext. intros st.
    by rewrite (has_prices_has_price_row _ _ _ st Hloop). }
  exists pg, pd. split; [done|]. split; [by rewrite Hout, Hfilter|].
  intros st Hin (prow & Hprow & Hid) Hvalid.
  exists (enrich pg pd st). split; [|split; [by apply same_columns_enrich | done]].
  rewrite Hout, Hfilter. apply list_elem_of_In, in_map, filter_In.
  split; [by apply list_elem_of_In|]. apply andb_true_iff. split.
  - unfold has_price_row. apply existsb_exists. exists prow.
    split; [by apply list_elem_of_In | by apply Z.eqb_eq].
  - by apply coordinates_ok_valid.
Qed.

Lemma merge_keeps_priced_valid_stations_witness :
  ∃ pg pd,
    iterrows_loop (price_frames sample_store 0) (∅, ∅) = Ok (pg, pd) ∧
    station_frames sample_merged 3 =
      map (enrich pg pd)
        (List.filter
           (λ st, has_price_row (price_frames sample_store 0) st && coordinates_ok st)
           (station_frames sample_store 0)) ∧
    ∀ st, st ∈ station_frames sample_store 0 →
      (∃ price_row, price_row ∈ price_frames sample_store 0 ∧
                    Price.idImpianto price_row = Station.idImpianto st) →
      coordinates_valid st →
      ∃ row, row ∈ station_frames sample_merged 3 ∧
             same_station_columns st row ∧
             Station.prices row = Some (pg !! Station.idImpianto st) ∧
             Station.priceDates row = Some (pd !! Station.idImpianto st).
Proof.
  apply (merge_keeps_priced_valid_stations sample_store sample_merged 0 0 3).
  vm_compute. reflexivity.
Defined.

(** X7. Whether the pipeline completes depends on the prices alone: it
    emits a document exactly when no price is malformed, whatever the
    station frame holds (a bad coordinate only drops its station);
    otherwise it exits with status 1 and leaves the store as it was. *)
Theorem process_completes_or_exits (h : heap) (prices_df stations_df : nat) :
  (Forall (λ row, ¬ malformed row) (price_frames h prices_df) ∧
   ∃ doc h', process prices_df stations_df h = (Ok doc, h')) ∨
  (Exists malformed (price_frames h prices_df) ∧
   process prices_df stations_df h = (Raise (SystemExit 1), h)).
Proof.
  destruct (malformed_or_not (price_frames h prices_df)) as [Hall|Hbad].
  - left. split; [done|].
    destruct (clean_and_merge_data_completes h prices_df stations_df Hall)
      as (r & h' & Hrun).
    destruct (process_ok _ _ _ _ _ Hrun) as (doc & _ & Hdoc). by exists doc, h'.
  - right. split; [done|].
    assert (Hrun : clean_and_merge_data prices_df stations_df h
                   = (Raise (SystemExit 1), h)).
    { apply clean_and_merge_data_raise.
      apply iterrows_loop_malformed; [apply groups_inv_empty | done]. }
    unfold process. unfold mbind, py_bind. by rewrite Hrun.
Qed.

Lemma filter_none {A : Type} (l : list A) : List.filter (λ _, false) l = [].
Proof. by induction l. Qed.

(** X8. With no price row at all the merge completes, drops every station
    and the pipeline emits a FeatureCollection without features. *)
Theorem no_prices_no_features (h : heap) (prices_df stations_df : nat) :
  price_frames h prices_df = [] →
  ∃ r h',
    clean_and_merge_data prices_df stations_df h = (Ok r, h') ∧
    station_frames h' r = [] ∧
    process prices_df stations_df h =
      (Ok {| GeoJSON.document_type := "FeatureCollection";
             GeoJSON.features := [] |}, h').
Proof.
  intros Hempty.
  assert (Hloop : iterrows_loop (price_frames h prices_df) (∅, ∅) = Ok (∅, ∅)).
  { by rewrite Hempty. }
  destruct (clean_and_merge_data_ok h prices_df stations_df ∅ ∅ Hloop)
    as (h' & Hrun & _ & _ & Hout & _).
  assert (Hnone : station_frames h' (S (S (next_frame h))) = []).
  { rewrite Hout.
    rewrite (List.filter_ext _ (λ _, false)); [|intros st].
    - by rewrite filter_none.
    - unfold has_prices. rewrite lookup_empty.
      apply andb_false_iff. left. apply bool_decide_eq_false. by intros [? ?]. }
  exists (S (S (next_frame h))), h'. split; [done|]. split; [done|].
  unfold process. unfold mbind at 1. unfold py_bind. rewrite Hrun.
  apply create_geojson_ok. by rewrite Hnone.
Qed.

Lemma no_prices_no_features_witness :
  ∃ r h',
    clean_and_merge_data 0 0 (store_of [] sample_stations) = (Ok r, h') ∧
    station_frames h' r = [] ∧
    process 0 0 (store_of [] sample_stations) =
      (Ok {| GeoJSON.document_type := "FeatureCollection";
             GeoJSON.features := [] |}, h').
Proof.
  apply (no_prices_no_features (store_of [] sample_stations) 0 0).
  reflexivity.
Defined.

(** ** [create_geojson] on any frame *)

Lemma make_feature_outcome (row : Station.row) :
  (emittable row ∧ ∃ f, make_feature row = Ok f) ∨
  (¬ emittable row ∧
   (make_feature row = Raise ValueError ∨ make_feature row = Raise KeyError)).
Proof.
  unfold emittable, make_feature.
  destruct (Station.Longitudine row) as [lon|] eqn:Hlon.
  - destruct (Station.Latitudine row) as [lat|] eqn:Hlat.
    + destruct (Station.prices row) as [sp|] eqn:Hsp.
      * left. split; [by exists lon, lat, sp | by eexists].
      * right. split; [by intros (? & ? & ? & _ & _ & ?) | by right].
    + right. split; [by intros (? & ? & ? & _ & ? & _) | by left].
  - right. split; [by intros (? & ? & ? & ? & _) | by left].
Qed.

Lemma make_features_outcome (rows : list Station.row) :
  (Forall emittable rows ∧
   ∃ fs, make_features rows = Ok fs ∧ length fs = length rows) ∨
  (Exists (λ row, ¬ emittable row) rows ∧
   (make_features rows = Raise ValueError ∨ make_features rows = Raise KeyError)).
Proof.
  induction rows as [|row rest IH]; simpl.
  - left. split; [constructor | by exists []].
  - destruct (make_feature_outcome row) as [[Hrow [f Hf]]|[Hrow Hraise]].
    + rewrite Hf. simpl.
      destruct IH as [[Hall (fs & Hfs & Hlen)]|[Hex Hraise]].
      * left. split; [by constructor|]. rewrite Hfs. simpl.
        exists (f :: fs). split; [done|]. simpl. by rewrite Hlen.
      * right. split; [by apply Exists_cons_tl|].
        destruct Hraise as [-> | ->]; [by left | by right].
    + right. split; [by apply Exists_cons_hd|].
      destruct Hraise as [-> | ->]; [by left | by right].
Qed.

(** X9. On any station frame [create_geojson] either returns a
    FeatureCollection with one feature per row, which it does exactly when
    every row has numeric coordinates and the [prices] column, or it
    exits with status 1 without a partial result; in both cases it leaves
    the store as it was. *)
Theorem create_geojson_completes_or_exits (h : heap) (stations_df : nat) :
  (Forall emittable (station_frames h stations_df) ∧
   ∃ doc, create_geojson stations_df h = (Ok doc, h) ∧
          GeoJSON.document_type doc = "FeatureCollection" ∧
          length (GeoJSON.features doc) = length (station_frames h stations_df)) ∨
  (Exists (λ row, ¬ emittable row) (station_frames h stations_df) ∧
   create_geojson stations_df h = (Raise (SystemExit 1), h)).
Proof.
  destruct (make_features_outcome (station_frames h stations_df))
    as [[Hall (fs & Hfs & Hlen)]|[Hex Hraise]].
  - left. split; [done|]. eexists. split; [by apply create_geojson_ok|]. done.
  - right. split; [done|]. unfold create_geojson, try_except_exit_py.
    unfold mbind, py_bind, read_stations, lift.
    by destruct Hraise as [-> | ->].
Qed.

(** A frame that was not merged has no [prices] column. *)
Example create_geojson_unmerged_frame :
  create_geojson 0 sample_store = (Raise (SystemExit 1), sample_store).
Proof. reflexivity. Qed.

(** ** The features and their stations *)

(** X10. Prices are attached by identifier alone: two emitted features
    with the same identifier carry the same prices and the same dates. *)
Theorem features_with_same_id_share_prices (h h' : heap)
    (prices_df stations_df : nat) (doc : GeoJSON.document) :
  process prices_df stations_df h = (Ok doc, h') →
  ∀ f1 f2, f1 ∈ GeoJSON.features doc → f2 ∈ GeoJSON.features doc →
    GeoJSON.idImpianto (GeoJSON.properties_of f1)
    = GeoJSON.idImpianto (GeoJSON.properties_of f2) →
    GeoJSON.prices (GeoJSON.properties_of f1)
    = GeoJSON.prices (GeoJSON.properties_of f2) ∧
    GeoJSON.priceDates (GeoJSON.properties_of f1)
    = GeoJSON.priceDates (GeoJSON.properties_of f2).
Proof.
  intros Hdoc.
  destruct (process_inv _ _ _ _ _ Hdoc)
    as (pg & pd & kept & _ & _ & _ & _ & _ & _ & Hfs).
  assert (Hfeature : ∀ f, f ∈ GeoJSON.features doc →
            GeoJSON.prices (GeoJSON.properties_of f)
            = pg !! GeoJSON.idImpianto (GeoJSON.properties_of f) ∧
            GeoJSON.priceDates (GeoJSON.properties_of f)
            = pd !! GeoJSON.idImpianto (GeoJSON.properties_of f)).
  { intros f Hf. apply list_elem_of_lookup in Hf as [i Hi].
    destruct (Forall2_lookup_r _ _ _ _ _ Hfs Hi) as (st & _ & Hmk).
    apply make_feature_inv in Hmk as (lon & lat & sp & _ & _ & Hsp & ->).
    simpl in *. split; [congruence | done]. }
  intros f1 f2 H1 H2 Hid.
  destruct (Hfeature f1 H1) as [-> ->], (Hfeature f2 H2) as [-> ->].
  by rewrite Hid.
Qed.

Lemma features_with_same_id_share_prices_witness :
  Forall (λ f1, Forall (λ f2,
    GeoJSON.idImpianto (GeoJSON.properties_of f1)
    = GeoJSON.idImpianto (GeoJSON.properties_of f2) →
    GeoJSON.prices (GeoJSON.properties_of f1)
    = GeoJSON.prices (GeoJSON.properties_of f2) ∧
    GeoJSON.priceDates (GeoJSON.properties_of f1)
    = GeoJSON.priceDates (GeoJSON.properties_of f2))
    (GeoJSON.features sample_document)) (GeoJSON.features sample_document).
Proof.
  apply Forall_forall. intros f1 H1. apply Forall_forall. intros f2 H2.
  apply (features_with_same_id_share_prices sample_store sample_merged 0 0
           sample_document); [vm_compute; reflexivity | done | done].
Defined.

Lemma rendered_get_str (c : option pyval) : rendered c (get_str c).
Proof. by destruct c as [[s|]|]. Qed.

(** X11. Every emitted feature comes from an input station with the same
    identifier whose descriptive fields it renders: the text of a field
    that has one, [nan] for a field that is empty in the CSV, the empty
    string for a column that the frame lacks. *)
Theorem descriptive_fields_rendered (h h' : heap) (prices_df stations_df : nat)
    (doc : GeoJSON.document) :
  process prices_df stations_df h = (Ok doc, h') →
  ∀ f, f ∈ GeoJSON.features doc →
    ∃ st, st ∈ station_frames h stations_df ∧
      GeoJSON.idImpianto (GeoJSON.properties_of f) = Station.idImpianto st ∧
      rendered (Station.Gestore st) (GeoJSON.Gestore (GeoJSON.properties_of f)) ∧
      rendered (Station.Bandiera st) (GeoJSON.Bandiera (GeoJSON.properties_of f)) ∧
      rendered (Station.Tipo_Impianto st)
        (GeoJSON.TipoImpianto (GeoJSON.properties_of f)) ∧
      rendered (Station.Nome_Impianto st)
        (GeoJSON.NomeImpianto (GeoJSON.properties_of f)) ∧
      rendered (Station.Indirizzo st) (GeoJSON.Indirizzo (GeoJSON.properties_of f)) ∧
      rendered (Station.Comune st) (GeoJSON.Comune (GeoJSON.properties_of f)) ∧
      rendered (Station.Provincia st) (GeoJSON.Provincia (GeoJSON.properties_of f)).
Proof.
  intros Hdoc f Hf.
  destruct (process_inv _ _ _ _ _ Hdoc)
    as (pg & pd & kept & _ & _ & _ & Hkept & _ & _ & Hfs).
  apply list_elem_of_lookup in Hf as [i Hi].
  destruct (Forall2_lookup_r _ _ _ _ _ Hfs Hi) as (st & Hst & Hmk).
  exists st. split.
  - apply list_elem_of_lookup_2 in Hst. rewrite Hkept in Hst.
    apply list_elem_of_In, filter_In in Hst as [Hin _]. by apply list_elem_of_In.
  - apply make_feature_inv in Hmk as (lon & lat & sp & _ & _ & _ & ->).
    simpl. repeat split; apply rendered_get_str.
Qed.

Lemma descriptive_fields_rendered_witness :
  Forall (λ f,
    ∃ st, st ∈ station_frames sample_store 0 ∧
      GeoJSON.idImpianto (GeoJSON.properties_of f) = Station.idImpianto st ∧
      rendered (Station.Gestore st) (GeoJSON.Gestore (GeoJSON.properties_of f)) ∧
      rendered (Station.Bandiera st) (GeoJSON.Bandiera (GeoJSON.properties_of f)) ∧
      rendered (Station.Tipo_Impianto st)
        (GeoJSON.TipoImpianto (GeoJSON.properties_of f)) ∧
      rendered (Station.Nome_Impianto st)
        (GeoJSON.NomeImpianto (GeoJSON.properties_of f)) ∧
      rendered (Station.Indirizzo st) (GeoJSON.Indirizzo (GeoJSON.properties_of f)) ∧
      rendered (Station.Comune st) (GeoJSON.Comune (GeoJSON.properties_of f)) ∧
      rendered (Station.Provincia st) (GeoJSON.Provincia (GeoJSON.properties_of f)))
    (GeoJSON.features sample_document).
Proof.
  apply Forall_forall.
  apply (descriptive_fields_rendered sample_store sample_merged 0 0).
  vm_compute. reflexivity.
Defined.

(** ** Running the merge again *)

Lemma assign_twice pg pd (rows : list Station.row) :
  assign_priceDates pd (assign_prices pg
    (assign_priceDates pd (assign_prices pg rows)))
  = assign_priceDates pd (assign_prices pg rows).
Proof.
  unfold assign_priceDates, assign_prices. rewrite !map_map. by apply map_ext.
Qed.

Lemma enrich_assigned pg pd (rows : list Station.row) :
  map (enrich pg pd)
    (List.filter (λ st, has_prices pg st && coordinates_ok st)
       (assign_priceDates pd (assign_prices pg rows)))
  = map (enrich pg pd)
      (List.filter (λ st, has_prices pg st && coordinates_ok st) rows).
Proof.
  unfold assign_priceDates, assign_prices.
  rewrite map_map, filter_map_comm, map_map. by apply map_ext.
Qed.

(** X12. The columns that the merge leaves on the caller's station frame do
    not disturb a second run: merging again from the store that the first
    run left completes, returns a frame with the same rows as the first and
    leaves the caller's frame as the first run left it. *)
Theorem merge_rerun_gives_same_rows (h h1 : heap) (prices_df stations_df r1 : nat) :
  (stations_df < next_frame h)%nat →
  clean_and_merge_data prices_df stations_df h = (Ok r1, h1) →
  ∃ r2 h2,
    clean_and_merge_data prices_df stations_df h1 = (Ok r2, h2) ∧
    station_frames h2 r2 = station_frames h1 r1 ∧
    station_frames h2 stations_df = station_frames h1 stations_df.
Proof.
  intros Hlive Hrun1.
  destruct (clean_and_merge_data_inv _ _ _ _ _ Hrun1)
    as (pg & pd & Hloop & _).
  destruct (clean_and_merge_data_ok h prices_df stations_df pg pd Hloop)
    as (h1' & Hrun1' & Hp & Hnext & Hout1 & Hin1 & _).
  rewrite Hrun1' in Hrun1. injection Hrun1 as <- <-.
  specialize (Hin1 Hlive).
  assert (Hloop2 : iterrows_loop (price_frames h1' prices_df) (∅, ∅) = Ok (pg, pd)).
  { by rewrite Hp. }
  destruct (clean_and_merge_data_ok h1' prices_df stations_df pg pd Hloop2)
    as (h2 & Hrun2 & _ & _ & Hout2 & Hin2 & _).
  exists (S (S (next_frame h1'))), h2. split; [done|]. split.
  - rewrite Hout2, Hout1, Hin1. apply enrich_assigned.
  - rewrite Hin2 by lia. rewrite Hin1. apply assign_twice.
Qed.

Lemma merge_rerun_gives_same_rows_witness :
  ∃ r2 h2,
    clean_and_merge_data 0 0 sample_merged = (Ok r2, h2) ∧
    station_frames h2 r2 = station_frames sample_merged 3 ∧
    station_frames h2 0 = station_frames sample_merged 0.
Proof.
  apply (merge_rerun_gives_same_rows sample_store sample_merged 0 0 3).
  - simpl. lia.
  - vm_compute. reflexivity.
Defined.

(** ** Prices and their dates *)

Lemma iterrows_loop_snoc (rows : list Price.row) (row : Price.row)
    (st' : gmap Z (gmap string pyfloat) * gmap Z (gmap string pyval)) :
  iterrows_loop (rows ++ [row]) (∅, ∅) = Ok st' →
  ∃ st, iterrows_loop rows (∅, ∅) = Ok st ∧ groups_inv st ∧
        price_step st row = Ok st'.
Proof.
  rewrite iterrows_loop_app.
  destruct (iterrows_loop rows (∅, ∅)) as [st|e] eqn:Hrun; [|done]. simpl.
  intros Hstep. exists st. split; [done|]. split.
  - eapply iterrows_loop_inv; [apply groups_inv_empty | done].
  - by destruct (price_step st row).
Qed.

(** A stored price and the date stored with it come from one price row. *)
Lemma iterrows_loop_paired (rows : list Price.row)
    (st : gmap Z (gmap string pyfloat) * gmap Z (gmap string pyval))
    (station_id : Z) (category : string) (p : pyfloat) :
  iterrows_loop rows (∅, ∅) = Ok st →
  entry st.1 station_id category = Some p →
  ∃ row, row ∈ rows ∧ row_matches station_id category row = true ∧
         Price.prezzo row = Num p ∧
         entry st.2 station_id category = Some (date_of row).
Proof.
  revert st p. induction rows as [|row rows IH] using rev_ind; intros st' p Hrun Hp.
  - injection Hrun as <-. simpl in Hp. by rewrite entry_empty in Hp.
  - destruct (iterrows_loop_snoc rows row st' Hrun) as (st & Hrows & Hinv & Hstep).
    destruct (Price.prezzo row) as [q|] eqn:Hq;
      [|by rewrite (price_step_malformed st row Hinv Hq) in Hstep].
    destruct (price_step_number st row q Hinv Hq)
      as (st1 & Hstep1 & _ & Hother & Hsame).
    assert (st1 = st') as -> by congruence.
    assert (Hold : entry st.1 station_id category = Some p →
                   entry st'.2 station_id category = entry st.2 station_id category →
                   ∃ r, r ∈ rows ++ [row] ∧ row_matches station_id category r = true ∧
                        Price.prezzo r = Num p ∧
                        entry st'.2 station_id category = Some (date_of r)).
    { intros Hg Hd. destruct (IH st p Hrows Hg) as (r & Hin & Hm & Hr & Hdate).
      exists r. split; [apply elem_of_app; by left|]. by rewrite Hd. }
    assert (Hnew : row_matches station_id category row = true → q = p →
                   entry st'.2 station_id category = Some (date_of row) →
                   ∃ r, r ∈ rows ++ [row] ∧ row_matches station_id category r = true ∧
                        Price.prezzo r = Num p ∧
                        entry st'.2 station_id category = Some (date_of r)).
    { intros Hm <- Hd. exists row. split; [|done].
      apply elem_of_app. right. apply list_elem_of_here. }
    destruct (row_matches station_id category row) eqn:Hm.
    + specialize (Hsame _ _ Hm).
      destruct (entry st.1 station_id category) as [stored|] eqn:Hstored.
      * destruct (flt q stored); destruct Hsame as [Hg Hd].
        -- apply Hnew; [done | congruence | done].
        -- apply Hold; [congruence | done].
      * destruct Hsame as [Hg Hd]. apply Hnew; [done | congruence | done].
    + destruct (Hother _ _ Hm) as [Hg Hd]. apply Hold; [congruence | done].
Qed.

(** X13. In every station row that the merge returns, the price of a
    category and the date stored with it come from one and the same price
    row of that station and category, whatever the prices are; a price row
    without [dtComu] gives the empty date. *)
Theorem price_and_date_from_same_row (h h' : heap)
    (prices_df stations_df r : nat) :
  clean_and_merge_data prices_df stations_df h = (Ok r, h') →
  ∀ row, row ∈ station_frames h' r →
    ∃ g d,
      Station.prices row = Some (Some g) ∧
      Station.priceDates row = Some (Some d) ∧
      ∀ category p,
        g !! category = Some p →
        ∃ price_row, price_row ∈ price_frames h prices_df ∧
          Price.idImpianto price_row = Station.idImpianto row ∧
          get_main_fuel_category (Price.descCarburante price_row) = category ∧
          Price.prezzo price_row = Num p ∧
          d !! category = Some (default (VStr EmptyString) (Price.dtComu price_row)).
Proof.
  intros Hrun row Hrow.
  destruct (clean_and_merge_data_inv _ _ _ _ _ Hrun)
    as (pg & pd & Hloop & Hinv & _ & _ & _ & Hout & _).
  rewrite Hout in Hrow. apply list_elem_of_In, in_map_iff in Hrow as (st & <- & Hin).
  apply filter_In in Hin as [_ Hkeep]. apply andb_true_iff in Hkeep as [Hhas _].
  unfold has_prices in Hhas. apply bool_decide_eq_true in Hhas as [g Hg].
  pose proof (Hinv (Station.idImpianto st)) as H1. simpl in H1. rewrite Hg in H1.
  destruct (pd !! Station.idImpianto st) as [d|] eqn:Hd; [|done].
  exists g, d. simpl. rewrite Hg, Hd. split; [done|]. split; [done|].
  intros category p Hp.
  destruct (iterrows_loop_paired _ _ (Station.idImpianto st) category p Hloop)
    as (prow & Hprow & Hm & Hprice & Hdate).
  { unfold entry. simpl. by rewrite Hg. }
  exists prow. apply row_matches_true in Hm as [? ?].
  unfold entry in Hdate. simpl in Hdate. rewrite Hd in Hdate.
  by repeat split.
Qed.

Lemma price_and_date_from_same_row_witness :
  Forall (λ row,
    ∃ g d,
      Station.prices row = Some (Some g) ∧
      Station.priceDates row = Some (Some d) ∧
      ∀ category p,
        g !! category = Some p →
        ∃ price_row, price_row ∈ price_frames sample_store 0 ∧
          Price.idImpianto price_row = Station.idImpianto row ∧
          get_main_fuel_category (Price.descCarburante price_row) = category ∧
          Price.prezzo price_row = Num p ∧
          d !! category = Some (default (VStr EmptyString) (Price.dtComu price_row)))
    (station_frames sample_merged 3).
Proof.
  apply Forall_forall.
  apply (price_and_date_from_same_row sample_store sample_merged 0 0 3).
  vm_compute. reflexivity.
Defined.
